(** * The OpenCL backend of tinygrad: [tinygrad/runtime/ops_gpu.py]

    A shallow embedding of the module and the properties of its
    specification.  The Python code runs against a C driver through
    ctypes; here every driver call is an event appended to a trace, and
    what the driver answers is given by an oracle that sees the calls made
    so far.  Python exceptions are a constructor of the result type, and
    the mutable state of the process (class attributes of [CLDevice], the
    [CLDevice] objects, the persistent compile cache) is threaded through
    a state-and-exception monad. *)

From Stdlib Require Import ZArith String Ascii Floats Uint63 DecimalString DecimalZ DecimalPos Lia.
From stdpp Require Import base option list gmap strings.

Local Open Scope Z_scope.

(** ** Python and ctypes values *)

(** A driver object handle ([cl_context], [cl_mem], [cl_kernel], ...): an
    opaque pointer. *)
Definition handle := Z.

Definition bytes := list Byte.byte.

(** A [memoryview] over caller-owned host memory.  [mv_obj] is the identity
    of the view object; two views with the same identity are the same
    Python object. *)
Record memoryview := {
  mv_obj : nat;
  mv_len : Z;
  mv_itemsize : Z }.

(** Modelled from the spec: [DType] and [ImageDType] of [tinygrad.helpers]
    are not part of this file.  The backend reads the per-element byte
    width of every element type, and of an image type also its declared
    shape. *)
Inductive DType :=
| PlainDType (itemsize : Z)
| ImageDType (itemsize : Z) (shape : list Z).

Definition itemsize (dtype : DType) : Z :=
  match dtype with PlainDType n => n | ImageDType n _ => n end.

(** A positional argument of a kernel call: [Union[cl.cl_mem, int]]. *)
Inductive pyarg :=
| PyMem (h : handle)
| PyInt (v : Z).

(** The ctypes object bound to a kernel argument, recorded by the value
    it holds. *)
Inductive cvalue :=
| c_int32 (v : Z)
| cl_mem (h : handle).

(** The value a [ctypes.c_int32] holds when built from the Python integer
    [v]: ctypes checks no overflow, the integer is taken modulo [2^32] and
    read as signed. *)
Definition int32 (v : Z) : Z := (v + 2 ^ 31) mod 2 ^ 32 - 2 ^ 31.

(** The value a [ctypes.c_size_t] holds when built from the Python integer
    [v]: [v] modulo [2^64], on the 64-bit platforms the backend runs on. *)
Definition size_t (v : Z) : Z := v mod 2 ^ 64.

(** A [ctypes.c_size_t] array of length [len(t)] initialised from the
    tuple [t] (line 57): it holds every entry of the tuple as a
    [c_size_t]. *)
Definition size_t_array (t : list Z) : list Z := size_t <$> t.

(** The exceptions the module can raise. *)
Inductive exn :=
| RuntimeError (msg : string)
| AssertionError (msg : string)
| KeyError (key : Z)
| IndexError
| TypeError
| ValueError
| AttributeError (attr : string)
| UnicodeDecodeError.

Inductive result (A : Type) :=
| Ok (a : A)
| Raise (e : exn).
Arguments Ok {A} a.
Arguments Raise {A} e.

(** [str(status)] inside an f-string. *)
Definition str_of_int (z : Z) : string := NilZero.string_of_int (Z.to_int z).

Definition nl : string := String (ascii_of_nat 10) EmptyString.
Definition dquote : string := String (ascii_of_nat 34) EmptyString.

(** Sequence indexing [l[i]] with Python's negative indices. *)
Definition py_index {A} (l : list A) (i : Z) : result A :=
  let n := Z.of_nat (length l) in
  let j := if i <? 0 then i + n else i in
  if (j <? 0) || (n <=? j) then Raise IndexError
  else match l !! Z.to_nat j with Some a => Ok a | None => Raise IndexError end.

(** A zero-initialised ctypes buffer of [n] cells after the driver has
    written [written] into it: the driver never writes past the end. *)
Definition filled {A} (zero : A) (n : Z) (written : list A) : list A :=
  take (Z.to_nat n) (written ++ replicate (Z.to_nat n) zero).

(** *** [str.encode()] and [bytes.decode()]

    A Python [str] is represented by its UTF-8 encoding, so [encode] gives
    the bytes of the representation and [decode] succeeds on exactly the
    well-formed UTF-8 byte sequences (RFC 3629; the strict error handler,
    which is the default, raises on anything else). *)
Definition encode (s : string) : bytes := list_byte_of_string s.

Definition in_range (lo hi : N) (b : Byte.byte) : bool :=
  let n := Byte.to_N b in ((lo <=? n) && (n <=? hi))%N.

Definition cont (b : Byte.byte) : bool := in_range 128 191 b.

Fixpoint utf8_valid (bs : bytes) : bool :=
  match bs with
  | [] => true
  | b0 :: r0 =>
    if in_range 0 127 b0 then utf8_valid r0
    else match r0 with
    | [] => false
    | b1 :: r1 =>
      if in_range 194 223 b0 then cont b1 && utf8_valid r1
      else match r1 with
      | [] => false
      | b2 :: r2 =>
        if in_range 224 239 b0 then
          (if in_range 224 224 b0 then in_range 160 191 b1
           else if in_range 237 237 b0 then in_range 128 159 b1
           else cont b1) && cont b2 && utf8_valid r2
        else match r2 with
        | [] => false
        | b3 :: r3 =>
          (if in_range 240 240 b0 then in_range 144 191 b1
           else if in_range 241 243 b0 then cont b1
           else if in_range 244 244 b0 then in_range 128 143 b1
           else false) && cont b2 && cont b3 && utf8_valid r3
        end
      end
    end
  end.

Definition decode (bs : bytes) : result string :=
  if utf8_valid bs then Ok (string_of_list_byte bs) else Raise UnicodeDecodeError.

(** ** The driver boundary *)

Inductive channel_type := CL_HALF_FLOAT | CL_FLOAT.

(** [cl.cl_image_format(cl.CL_RGBA, channel_type)]. *)
Inductive cl_image_format := CL_RGBA (t : channel_type).

Inductive mem_flags := CL_MEM_READ_WRITE.

Inductive program_info := CL_PROGRAM_BINARY_SIZES | CL_PROGRAM_BINARIES.

Inductive profiling_info := CL_PROFILING_COMMAND_START | CL_PROFILING_COMMAND_END.

(** One driver call, with the arguments that vary from call to call.  An
    output pointer that is passed as [None] in one place and as a buffer in
    another appears as a boolean or an option; for the program binaries
    the call carries the size of the buffer that the pointer array leads
    to. *)
Inductive call :=
| clCreateProgramWithSource (context : handle) (source : bytes) (length : Z)
| clBuildProgram (program device_id : handle)
| clGetProgramBuildInfo (program device_id : handle) (param_value_size : Z)
    (with_value with_size_ret : bool)
| clGetProgramInfo (program : handle) (param : program_info) (binary_capacity : option Z)
| clReleaseProgram (program : handle)
| clCreateProgramWithBinary (context device_id : handle) (binary : bytes) (length : Z)
| clCreateKernel (program : handle) (name : bytes)
| clReleaseKernel (kernel : handle)
| clSetKernelArg (kernel : handle) (arg_index : Z) (arg_size : Z) (arg : cvalue)
| clEnqueueNDRangeKernel (queue kernel : handle) (work_dim : Z)
    (global_work_size : list Z) (local_work_size : option (list Z)) (with_event : bool)
| clWaitForEvents (event : handle)
| clGetEventProfilingInfo (event : handle) (param : profiling_info)
| clCreateImage2D (context : handle) (flags : mem_flags) (format : cl_image_format)
    (width height : Z)
| clCreateBuffer (context : handle) (flags : mem_flags) (size : Z)
| clReleaseMemObject (buf : handle)
| clEnqueueWriteBuffer (queue dest : handle) (blocking : bool) (size : Z) (src : memoryview)
| clEnqueueReadBuffer (queue src : handle) (blocking : bool) (size : Z) (dest : memoryview)
| clGetPlatformIDs (num_entries : Z) (with_ids : bool)
| clGetDeviceIDs (platform : handle) (num_entries : Z) (with_ids : bool)
| clCreateContext (device_id : handle)
| clCreateCommandQueue (context device_id : handle)
| clFinish (queue : handle).

(** What the driver hands back from one call: the status (returned, or
    stored through the error-code pointer), the object handle it returns or
    stores, the integer it stores through an output pointer (a count, a
    size, a timestamp, the binary status) and what it writes into a caller
    buffer or array. *)
Record response := {
  r_status : Z;
  r_handle : handle;
  r_value : Z;
  r_bytes : bytes;
  r_handles : list handle }.

(** The driver: its answer to a call may depend on every call made before. *)
Definition driver := list call → call → response.

(** ** Process state *)

(** A [CLDevice] object.  An attribute is [None] until [__init__] assigns
    it; reading it before that is an [AttributeError]. *)
Record CLDevice_obj := {
  dev_device_id : option handle;
  dev_context : option handle;
  dev_queue : option handle;
  dev_pending_copyin : option (list memoryview) }.

Definition blank : CLDevice_obj :=
  {| dev_device_id := None; dev_context := None; dev_queue := None;
     dev_pending_copyin := None |}.

(** [trace] is the sequence of driver calls made so far; [device_ids] and
    [compiler_context] are the class attributes [CLDevice.device_ids] and
    [CLDevice.compiler_context]; [heap] holds the [CLDevice] objects, a
    reference to one being its index; [cache] is the table of the
    persistent cache that backs [compile_cl]. *)
Record world := {
  trace : list call;
  device_ids : option (list handle);
  compiler_context : option nat;
  heap : list CLDevice_obj;
  cache : gmap string bytes }.

(** A process that has just imported the module, with the persistent cache
    as earlier processes left it. *)
Definition fresh (c : gmap string bytes) : world :=
  {| trace := []; device_ids := None; compiler_context := None; heap := [];
     cache := c |}.

Definition with_trace (t : list call) (w : world) : world :=
  {| trace := t; device_ids := device_ids w; compiler_context := compiler_context w;
     heap := heap w; cache := cache w |}.
Definition with_device_ids (v : option (list handle)) (w : world) : world :=
  {| trace := trace w; device_ids := v; compiler_context := compiler_context w;
     heap := heap w; cache := cache w |}.
Definition with_compiler_context (v : option nat) (w : world) : world :=
  {| trace := trace w; device_ids := device_ids w; compiler_context := v;
     heap := heap w; cache := cache w |}.
Definition with_heap (h : list CLDevice_obj) (w : world) : world :=
  {| trace := trace w; device_ids := device_ids w; compiler_context := compiler_context w;
     heap := h; cache := cache w |}.
Definition with_cache (c : gmap string bytes) (w : world) : world :=
  {| trace := trace w; device_ids := device_ids w; compiler_context := compiler_context w;
     heap := heap w; cache := c |}.

(** The object behind a reference. *)
Definition obj (w : world) (d : nat) : CLDevice_obj := default blank (heap w !! d).

(** [d.pending_copyin], when the attribute is set. *)
Definition pending_copyin (w : world) (d : nat) : option (list memoryview) :=
  dev_pending_copyin (obj w d).

(** ** The monad of the embedding: state, and exceptions that keep the
    state reached when they are raised *)

Definition M (A : Type) : Type := world → result A * world.

#[global] Instance M_ret : MRet M := λ A a w, (Ok a, w).
#[global] Instance M_bind : MBind M := λ A B k m w,
  match m w with
  | (Ok a, w') => k a w'
  | (Raise e, w') => (Raise e, w')
  end.

Definition raise {A} (e : exn) : M A := λ w, (Raise e, w).
Definition lift {A} (r : result A) : M A := λ w, (r, w).
Definition gets {A} (f : world → A) : M A := λ w, (Ok (f w), w).
Definition modify (f : world → world) : M unit := λ w, (Ok tt, f w).

(** Attribute access [o.name]. *)
Definition getattr {A} (d : nat) (f : CLDevice_obj → option A) (name : string) : M A :=
  λ w, match f (obj w d) with
       | Some a => (Ok a, w)
       | None => (Raise (AttributeError name), w)
       end.

(** Attribute assignment [o.name = v]. *)
Definition setattr (d : nat) (f : CLDevice_obj → CLDevice_obj) : M unit :=
  modify (λ w, with_heap (alter f d (heap w)) w).

Definition set_device_id (v : handle) (o : CLDevice_obj) : CLDevice_obj :=
  {| dev_device_id := Some v; dev_context := dev_context o; dev_queue := dev_queue o;
     dev_pending_copyin := dev_pending_copyin o |}.
Definition set_context (v : handle) (o : CLDevice_obj) : CLDevice_obj :=
  {| dev_device_id := dev_device_id o; dev_context := Some v; dev_queue := dev_queue o;
     dev_pending_copyin := dev_pending_copyin o |}.
Definition set_queue (v : handle) (o : CLDevice_obj) : CLDevice_obj :=
  {| dev_device_id := dev_device_id o; dev_context := dev_context o; dev_queue := Some v;
     dev_pending_copyin := dev_pending_copyin o |}.
Definition set_pending_copyin (v : list memoryview) (o : CLDevice_obj) : CLDevice_obj :=
  {| dev_device_id := dev_device_id o; dev_context := dev_context o; dev_queue := dev_queue o;
     dev_pending_copyin := Some v |}.

(** Object creation: a new object with no attribute set. *)
Definition new_object : M nat :=
  λ w, (Ok (length (heap w)), with_heap (heap w ++ [blank]) w).

(** A driver call: the oracle answers from the calls made so far, and the
    call joins the trace. *)
Definition driver_call (drv : driver) (c : call) : M response :=
  λ w, (Ok (drv (trace w) c), with_trace (trace w ++ [c]) w).

(** ** Status translation (lines 12-16) *)

Definition check (status : Z) : M unit :=
  if decide (status ≠ 0) then raise (RuntimeError ("OpenCL Error " +:+ str_of_int status))
  else mret tt.

Definition checked {A} (ret : A) (status : Z) : M A :=
  check status;; mret ret.

(** ** The compiler pipeline (lines 18-34) *)

Definition compiler_context_required : string :=
  "OpenCL requires a " +:+ dquote +:+ "compiler_context" +:+ dquote
  +:+ " to compile, init a device before you call this".

Section Compile.
Context (drv : driver).

(** The body of [compile_cl], what the decorator wraps.  The [assert] of
    line 20 is taken as executed (Python not run with [-O]).  For the build
    log the driver is asked for the size, then for the bytes, into a
    buffer of that size; for the binary likewise. *)
Definition compile_cl__wrapped__ (prg : string) : M bytes :=
  cc ← gets compiler_context;
  match cc with
  | None => raise (AssertionError compiler_context_required)
  | Some cctx =>
    let prg_bytes := encode prg in
    context ← getattr cctx dev_context "context";
    r ← driver_call drv
          (clCreateProgramWithSource context prg_bytes (Z.of_nat (length prg_bytes)));
    program ← checked (r_handle r) (r_status r);
    device_id ← getattr cctx dev_device_id "device_id";
    r ← driver_call drv (clBuildProgram program device_id);
    let status := r_status r in
    if decide (status ≠ 0) then
      r ← driver_call drv (clGetProgramBuildInfo program device_id 0 false true);
      let log_size := r_value r in
      r ← driver_call drv (clGetProgramBuildInfo program device_id log_size true false);
      let mstr := filled Byte.x00 log_size (r_bytes r) in
      log ← lift (decode mstr);
      raise (RuntimeError ("OpenCL Compile Error" +:+ nl +:+ nl +:+ log))
    else
      r ← driver_call drv (clGetProgramInfo program CL_PROGRAM_BINARY_SIZES None);
      check (r_status r);;
      let binary_size := r_value r in
      r ← driver_call drv
            (clGetProgramInfo program CL_PROGRAM_BINARIES (Some binary_size));
      let binary := filled Byte.x00 binary_size (r_bytes r) in
      check (r_status r);;
      r ← driver_call drv (clReleaseProgram program);
      check (r_status r);;
      mret binary
  end.

(** Modelled from the spec: the decorator [diskcache] of [tinygrad.helpers]
    is not part of this file.  It memoizes by the exact source text in a
    persistent table: a hit returns the stored bytes without running the
    body, a miss runs the body and stores what it returns. *)
Definition diskcache (func : string → M bytes) (key : string) : M bytes :=
  c ← gets cache;
  match c !! key with
  | Some stored => mret stored
  | None =>
    v ← func key;
    modify (λ w, with_cache (<[key := v]> (cache w)) w);;
    mret v
  end.

Definition compile_cl : string → M bytes := diskcache compile_cl__wrapped__.

End Compile.

(** ** Program objects (lines 36-64) *)

Definition OSX_TIMING_RATIO (OSX : bool) : float :=
  if OSX then (125 / 3)%float else 1.0%float.

(** [float(n)] for an integer, here the difference of two [c_ulong]
    values: the nearest double, ties to even. *)
Definition float_of_int (n : Z) : float :=
  SF2Prim (binary_normalize 53 1024 n 0 false).

(** The literal [1e-9]: the double nearest to it. *)
#[warnings="-inexact-float"] Definition nano : float := 1e-9%float.

(** [ctypes.sizeof] of a [c_int32] and of a handle, a pointer (eight bytes
    on the 64-bit platforms the backend runs on). *)
Definition sizeof (c : cvalue) : Z :=
  match c with c_int32 _ => 4 | cl_mem _ => 8 end.

Module CLProgram.

Record t := {
  device : nat;
  program : handle;
  kernel : handle;
  vars : Z }.

Section Methods.
Context (drv : driver) (OSX : bool).

Definition __init__ (device : nat) (name : string) (prg : bytes) (bufs vars : Z) : M t :=
  context ← getattr device dev_context "context";
  device_id ← getattr device dev_device_id "device_id";
  r ← driver_call drv
        (clCreateProgramWithBinary context device_id prg (Z.of_nat (length prg)));
  let binary_status := r_value r in
  program ← checked (r_handle r) (r_status r);
  check binary_status;;
  device_id ← getattr device dev_device_id "device_id";
  r ← driver_call drv (clBuildProgram program device_id);
  check (r_status r);;
  r ← driver_call drv (clCreateKernel program (encode name));
  kernel ← checked (r_handle r) (r_status r);
  mret {| device := device; program := program; kernel := kernel; vars := vars |}.

Definition __del__ (self : t) : M unit :=
  r ← driver_call drv (clReleaseKernel (kernel self));
  check (r_status r);;
  r ← driver_call drv (clReleaseProgram (program self));
  check (r_status r).

(** Line 53: the trailing [vars] arguments become [c_int32], which takes an
    integer only and keeps its low 32 bits; the others are passed as they
    are, and [ctypes.sizeof] on line 54 takes a ctypes object only. *)
Definition bound_value (self : t) (nbufs i : Z) (b : pyarg) : result cvalue :=
  if decide (i >= nbufs - vars self) then
    match b with PyInt v => Ok (c_int32 (int32 v)) | PyMem _ => Raise TypeError end
  else
    match b with PyMem h => Ok (cl_mem h) | PyInt _ => Raise TypeError end.

(** Lines 52-54: the loop over [enumerate(bufs)], from index [i] on. *)
Fixpoint bind_args (self : t) (nbufs i : Z) (bufs : list pyarg) : M unit :=
  match bufs with
  | [] => mret tt
  | b :: rest =>
    bc ← lift (bound_value self nbufs i b);
    driver_call drv (clSetKernelArg (kernel self) i (sizeof bc) bc);;
    bind_args self nbufs (i + 1) rest
  end.

(** Line 55: the dispatch size, a tuple of Python integers. *)
Definition dispatch_size (global_size : list Z) (local_size : option (list Z)) : list Z :=
  match local_size with
  | Some l => zip_with Z.mul global_size l
  | None => global_size
  end.

(** Line 57: [... if local_size else None]; an empty tuple is false. *)
Definition local_work_size (local_size : option (list Z)) : option (list Z) :=
  match local_size with
  | Some (x :: l) => Some (x :: l)
  | _ => None
  end.

Definition __call__ (self : t) (bufs : list pyarg) (global_size : list Z)
    (local_size : option (list Z)) (wait : bool) : M (option float) :=
  bind_args self (Z.of_nat (length bufs)) 0 bufs;;
  let global_size := dispatch_size global_size local_size in
  queue ← getattr (device self) dev_queue "queue";
  r ← driver_call drv
        (clEnqueueNDRangeKernel queue (kernel self) (Z.of_nat (length global_size))
           (size_t_array global_size) (size_t_array <$> local_work_size local_size) wait);
  let event := r_handle r in
  check (r_status r);;
  if wait then
    r ← driver_call drv (clWaitForEvents event);
    check (r_status r);;
    r ← driver_call drv (clGetEventProfilingInfo event CL_PROFILING_COMMAND_START);
    let start := r_value r in
    check (r_status r);;
    r ← driver_call drv (clGetEventProfilingInfo event CL_PROFILING_COMMAND_END);
    let end_ := r_value r in
    check (r_status r);;
    mret (Some (float_of_int (end_ - start) * OSX_TIMING_RATIO OSX * nano)%float)
  else mret None.

End Methods.
End CLProgram.

(** ** Devices (lines 85-103) *)

(** The device string as line 95 reads it: no colon in it; a field after
    the first colon that [int] accepts; or one that [int] rejects. *)
Inductive device_string :=
| NoSuffix
| Suffix (index : Z)
| BadSuffix.

Module CLDevice.
Section Methods.
Context (drv : driver).

(** Lines 89-94: enumeration, run when [CLDevice.device_ids] is [None]. *)
Definition discover : M unit :=
  r ← driver_call drv (clGetPlatformIDs 0 false);
  check (r_status r);;
  let num_platforms := r_value r in
  r ← driver_call drv (clGetPlatformIDs num_platforms true);
  let platform_ids := filled 0 num_platforms (r_handles r) in
  check (r_status r);;
  platform ← lift (py_index platform_ids 0);
  r ← driver_call drv (clGetDeviceIDs platform 0 false);
  check (r_status r);;
  let num_devices := r_value r in
  modify (with_device_ids (Some (filled 0 num_devices [])));;
  platform ← lift (py_index platform_ids 0);
  r ← driver_call drv (clGetDeviceIDs platform num_devices true);
  modify (with_device_ids (Some (filled 0 num_devices (r_handles r))));;
  check (r_status r).

(** Line 95: the index into [CLDevice.device_ids]. *)
Definition device_index (device : device_string) : result Z :=
  match device with
  | NoSuffix => Ok 0
  | Suffix i => Ok i
  | BadSuffix => Raise ValueError
  end.

(** Line 97: the election of the compiler context. *)
Definition elect (self : nat) : M unit :=
  cc ← gets compiler_context;
  if cc is None then modify (with_compiler_context (Some self)) else mret tt.

(** The initialiser, on the object [self] that the constructor call has
    just created.  Line 100 hands the allocator, the compiler and the
    program constructor to [Compiled.__init__], which is not part of this
    file and touches nothing of the state modelled here. *)
Definition __init__ (self : nat) (device : device_string) : M unit :=
  ids ← gets device_ids;
  (if ids is None then discover else mret tt);;
  ids ← gets device_ids;
  i ← lift (device_index device);
  device_id ← lift (py_index (default [] ids) i);
  setattr self (set_device_id device_id);;
  device_id ← getattr self dev_device_id "device_id";
  r ← driver_call drv (clCreateContext device_id);
  context ← checked (r_handle r) (r_status r);
  setattr self (set_context context);;
  elect self;;
  context ← getattr self dev_context "context";
  device_id ← getattr self dev_device_id "device_id";
  r ← driver_call drv (clCreateCommandQueue context device_id);
  queue ← checked (r_handle r) (r_status r);
  setattr self (set_queue queue);;
  setattr self (set_pending_copyin []).

(** The constructor call [CLDevice(device)]: a new object, initialised. *)
Definition new (device : device_string) : M nat :=
  self ← new_object;
  __init__ self device;;
  mret self.

Definition synchronize (self : nat) : M unit :=
  queue ← getattr self dev_queue "queue";
  r ← driver_call drv (clFinish queue);
  check (r_status r);;
  pending ← getattr self dev_pending_copyin "pending_copyin";
  setattr self (set_pending_copyin []).

End Methods.
End CLDevice.

(** ** The allocator (lines 66-83) *)

Module CLAllocator.

(** The allocator object: its [device] attribute. *)
Record t := { device : nat }.

Section Methods.
Context (drv : driver).

(** The table [{2: cl.CL_HALF_FLOAT, 4: cl.CL_FLOAT}]; subscripting it with
    another key raises [KeyError]. *)
Definition channel_type_of (itemsize : Z) : result channel_type :=
  if decide (itemsize = 2) then Ok CL_HALF_FLOAT
  else if decide (itemsize = 4) then Ok CL_FLOAT
  else Raise (KeyError itemsize).

Definition _alloc (self : t) (size : Z) (dtype : DType) : M handle :=
  match dtype with
  | ImageDType itemsize shape =>
    context ← getattr (device self) dev_context "context";
    channel ← lift (channel_type_of itemsize);
    width ← lift (py_index shape 1);
    height ← lift (py_index shape 0);
    r ← driver_call drv
          (clCreateImage2D context CL_MEM_READ_WRITE (CL_RGBA channel) width height);
    checked (r_handle r) (r_status r)
  | PlainDType itemsize =>
    context ← getattr (device self) dev_context "context";
    r ← driver_call drv (clCreateBuffer context CL_MEM_READ_WRITE (size * itemsize));
    checked (r_handle r) (r_status r)
  end.

Definition _free (self : t) (buf : handle) : M unit :=
  r ← driver_call drv (clReleaseMemObject buf);
  check (r_status r).

Definition copyin (self : t) (dest : handle) (src : memoryview) : M unit :=
  queue ← getattr (device self) dev_queue "queue";
  r ← driver_call drv
        (clEnqueueWriteBuffer queue dest false (mv_len src * mv_itemsize src) src);
  check (r_status r);;
  pending ← getattr (device self) dev_pending_copyin "pending_copyin";
  setattr (device self) (set_pending_copyin (pending ++ [src])).

Definition copyout (self : t) (dest : memoryview) (src : handle) : M unit :=
  queue ← getattr (device self) dev_queue "queue";
  r ← driver_call drv
        (clEnqueueReadBuffer queue src false (mv_len dest * mv_itemsize dest) dest);
  check (r_status r);;
  CLDevice.synchronize drv (device self).

End Methods.
End CLAllocator.

(** ** The operations of the module, as a caller can issue them *)

Inductive op :=
| NewDevice (device : device_string)
| Synchronize (d : nat)
| Compile (prg : string)
| NewProgram (d : nat) (name : string) (prg : bytes) (bufs vars : Z)
| DelProgram (p : CLProgram.t)
| CallProgram (p : CLProgram.t) (bufs : list pyarg) (global_size : list Z)
    (local_size : option (list Z)) (wait : bool)
| Alloc (a : CLAllocator.t) (size : Z) (dtype : DType)
| Free (a : CLAllocator.t) (buf : handle)
| Copyin (a : CLAllocator.t) (dest : handle) (src : memoryview)
| Copyout (a : CLAllocator.t) (dest : memoryview) (src : handle).

(** An operation run for its effect: the value it returns is dropped, an
    exception it raises is kept. *)
Definition void {A} (m : M A) : M unit :=
  λ w, match m w with
       | (Ok _, w') => (Ok tt, w')
       | (Raise e, w') => (Raise e, w')
       end.

Definition exec_op (drv : driver) (OSX : bool) (o : op) : M unit :=
  match o with
  | NewDevice device => void (CLDevice.new drv device)
  | Synchronize d => CLDevice.synchronize drv d
  | Compile prg => void (compile_cl drv prg)
  | NewProgram d name prg bufs vars => void (CLProgram.__init__ drv d name prg bufs vars)
  | DelProgram p => CLProgram.__del__ drv p
  | CallProgram p bufs g l wait => void (CLProgram.__call__ drv OSX p bufs g l wait)
  | Alloc a size dtype => void (CLAllocator._alloc drv a size dtype)
  | Free a buf => CLAllocator._free drv a buf
  | Copyin a dest src => CLAllocator.copyin drv a dest src
  | Copyout a dest src => CLAllocator.copyout drv a dest src
  end.

(** The state after an operation, whether it returned or raised. *)
Definition run_op (drv : driver) (OSX : bool) (o : op) (w : world) : world :=
  (exec_op drv OSX o w).2.

Definition run_ops (drv : driver) (OSX : bool) (os : list op) (w : world) : world :=
  foldl (λ w o, run_op drv OSX o w) w os.

(** The driver calls a computation makes from [w]. *)
Definition calls_made {A} (m : M A) (w : world) : list call :=
  drop (length (trace w)) (trace (m w).2).

(** [(work_dim, global_work_size)] of every kernel dispatch in a trace. *)
Definition dispatches (t : list call) : list (Z * list Z) :=
  omap (λ c, match c with
             | clEnqueueNDRangeKernel _ _ dim gws _ _ => Some (dim, gws)
             | _ => None
             end) t.

(** [s] occurs in [t]. *)
Definition contains (t s : string) : Prop := ∃ a b, t = a +:+ s +:+ b.

(** ** Fake drivers *)

(** A driver whose answers do not depend on the history: the status is
    chosen per call, every handle is [h], every integer output is given by
    [value], and it writes [data] and [ids] into any buffer or array. *)
Definition fake (status value : call → Z) (h : handle) (data : bytes)
    (ids : list handle) : driver :=
  λ _ c, {| r_status := status c; r_handle := h; r_value := value c;
            r_bytes := data; r_handles := ids |}.

(** Every call succeeds; one platform, two devices [7] and [8]. *)
Definition value_ok (c : call) : Z :=
  match c with
  | clGetPlatformIDs _ _ => 1
  | clGetDeviceIDs _ _ _ => 2
  | clGetEventProfilingInfo _ CL_PROFILING_COMMAND_START => 1000
  | clGetEventProfilingInfo _ CL_PROFILING_COMMAND_END => 4000
  | _ => 0
  end.

Definition ok_driver : driver := fake (λ _, 0) value_ok 42 [] [7; 8].

(** The build fails with [CL_BUILD_PROGRAM_FAILURE] and the build log is
    the six bytes of [ERR123]. *)
Definition build_fails : driver :=
  fake (λ c, match c with clBuildProgram _ _ => -11 | _ => 0 end)
       (λ c, match c with clGetProgramBuildInfo _ _ _ _ _ => 6 | c => value_ok c end)
       42 (encode "ERR123") [7; 8].

(** The build fails and the build log is the one byte [0xff], which is
    not UTF-8. *)
Definition undecodable_log : driver :=
  fake (λ c, match c with clBuildProgram _ _ => -11 | _ => 0 end)
       (λ c, match c with clGetProgramBuildInfo _ _ _ _ _ => 1 | c => value_ok c end)
       42 [Byte.xff] [7; 8].

(** Binding a kernel argument fails with [CL_INVALID_ARG_INDEX]. *)
Definition set_arg_fails : driver :=
  fake (λ c, match c with clSetKernelArg _ _ _ _ => -49 | _ => 0 end) value_ok 42 [] [7; 8].

(** Write and drain requests fail with [CL_OUT_OF_RESOURCES]. *)
Definition queue_ops_fail : driver :=
  fake (λ c, match c with
             | clFinish _ | clEnqueueWriteBuffer _ _ _ _ _ => -5
             | _ => 0
             end) value_ok 42 [] [7; 8].

(** The first device, [7], cannot have a profiling queue
    ([CL_INVALID_QUEUE_PROPERTIES]); the second, [8], can. *)
Definition no_queue_on_first_device : driver :=
  fake (λ c, match c with clCreateCommandQueue _ 7 => -35 | _ => 0 end)
       value_ok 42 [] [7; 8].

(** A process with one constructed device. *)
Definition one_device : world := (CLDevice.new ok_driver NoSuffix (fresh ∅)).2.

(** ** Inputs of the examples *)

Definition allocator0 : CLAllocator.t := {| CLAllocator.device := 0 |}.

Definition host_span : memoryview := {| mv_obj := 3; mv_len := 4; mv_itemsize := 2 |}.

(** One constructed device with one copy-in pending. *)
Definition one_pending : world :=
  (CLAllocator.copyin ok_driver allocator0 5 host_span one_device).2.

(** A program on device [0] whose last argument is a scalar. *)
Definition program0 : CLProgram.t :=
  {| CLProgram.device := 0; CLProgram.program := 1; CLProgram.kernel := 2;
     CLProgram.vars := 1 |}.

Definition args0 : list pyarg := [PyMem 9; PyInt 3].

(** ** Vocabulary of the proofs

    [keeps R m]: whatever [m] does and however it ends, the state it leaves
    is related by [R] to the state it started from. *)
Definition keeps {A} (R : relation world) (m : M A) : Prop := ∀ w, R w (m w).2.

(** The relations the properties below are about. *)

(** Nothing but the trace and the cache changed. *)
Definition only_driver (w w' : world) : Prop :=
  heap w' = heap w ∧ compiler_context w' = compiler_context w
  ∧ device_ids w' = device_ids w.

(** Nothing but the trace changed. *)
Definition only_trace (w w' : world) : Prop :=
  ∃ t, w' = with_trace (trace w ++ t) w.

(** Of the objects only [self] changed, and no class attribute did. *)
Definition only_object (self : nat) (w w' : world) : Prop :=
  (∀ d, d ≠ self → obj w' d = obj w d) ∧ compiler_context w' = compiler_context w
  ∧ device_ids w' = device_ids w.

(** Of the objects only [self] changed, whatever happened elsewhere. *)
Definition others_same (self : nat) (w w' : world) : Prop :=
  ∀ d, d ≠ self → obj w' d = obj w d.

(** A compiler context that is set stays what it is. *)
Definition compiler_context_kept (w w' : world) : Prop :=
  ∀ c, compiler_context w = Some c → compiler_context w' = Some c.

(** [preserved I]: a state predicate that holds before holds after. *)
Definition preserved (I : world → Prop) : relation world := λ w w', I w → I w'.

(** [ensures m Q]: whenever [m] returns, [Q] holds of the state it leaves. *)
Definition ensures {A} (m : M A) (Q : world → Prop) : Prop :=
  ∀ w a w', m w = (Ok a, w') → Q w'.

(** During the initialisation of [self], as long as no other compiler
    context existed: the compiler context is [self] if [self.context] has
    been assigned, and there is none otherwise. *)
Definition elected_iff_context (self : nat) (w : world) : Prop :=
  (self < length (heap w))%nat
  ∧ compiler_context w = if dev_context (obj w self) is Some _ then Some self else None.

(** [self.context] has been assigned. *)
Definition has_context (self : nat) (w : world) : Prop :=
  is_Some (dev_context (obj w self)).

(** The driver error that [check] raises for a status. *)
Definition driver_error (status : Z) : exn :=
  RuntimeError ("OpenCL Error " +:+ str_of_int status).

(** Only the trace grew, and by no kernel dispatch. *)
Definition no_dispatch (w w' : world) : Prop :=
  ∃ t, w' = with_trace (trace w ++ t) w ∧ dispatches t = [].

(** ** Vocabulary of the further properties *)

(** [int(s)] for a decimal numeral as [str] prints it. *)
Definition int_of_str (s : string) : option Z := Z.of_int <$> NilZero.int_of_string s.

(** [s] without the prefix [p], when it starts with it. *)
Fixpoint strip_prefix (p s : string) : option string :=
  match p, s with
  | EmptyString, _ => Some s
  | String a p', String b s' => if Ascii.eqb a b then strip_prefix p' s' else None
  | _, _ => None
  end.

(** The status that the message of a driver error carries. *)
Definition status_of (e : exn) : option Z :=
  match e with
  | RuntimeError msg => strip_prefix "OpenCL Error " msg ≫= int_of_str
  | _ => None
  end.

(** An argument fits its position: line 53 and line 54 accept it. *)
Definition fits (self : CLProgram.t) (nbufs j : Z) (b : pyarg) : Prop :=
  ∃ bc, CLProgram.bound_value self nbufs j b = Ok bc.

(** The driver accepts every write request, whatever came before. *)
Definition accepts_writes (drv : driver) : Prop :=
  ∀ t queue dest blocking size src,
    r_status (drv t (clEnqueueWriteBuffer queue dest blocking size src)) = 0.

(** A run of [copyin] calls on one allocator. *)
Definition copyins (a : CLAllocator.t) (xs : list (handle * memoryview)) : list op :=
  (λ x, Copyin a x.1 x.2) <$> xs.

(** The program objects released in a trace. *)
Definition releases (t : list call) : list handle :=
  omap (λ c, match c with clReleaseProgram p => Some p | _ => None end) t.

(** The enumeration calls of a trace (lines 90-94). *)
Definition enumerations (t : list call) : list call :=
  omap (λ c, match c with
             | clGetPlatformIDs _ _ | clGetDeviceIDs _ _ _ => Some c
             | _ => None
             end) t.

(** [CLDevice.device_ids] is what it was, and the trace grew by no
    enumeration call. *)
Definition ids_kept (w w' : world) : Prop :=
  device_ids w' = device_ids w ∧ ∃ t, trace w' = trace w ++ t ∧ enumerations t = [].

(** The operations on programs and on buffer handles: everything but the
    constructor, [synchronize], the copies and the compiler. *)
Definition handle_op (o : op) : bool :=
  match o with
  | NewProgram _ _ _ _ _ | DelProgram _ | CallProgram _ _ _ _ _
  | Alloc _ _ _ | Free _ _ => true
  | _ => false
  end.

(** ** Further fake drivers *)

(** The load of a binary returns with error code zero and with the binary
    status [CL_INVALID_BINARY]. *)
Definition binary_rejected : driver :=
  fake (λ _, 0)
       (λ c, match c with clCreateProgramWithBinary _ _ _ _ => -42 | c => value_ok c end)
       42 [] [7; 8].

(** Releasing a kernel fails with [CL_INVALID_KERNEL]. *)
Definition release_kernel_fails : driver :=
  fake (λ c, match c with clReleaseKernel _ => -48 | _ => 0 end) value_ok 42 [] [7; 8].

(** Waiting for an event fails with
    [CL_EXEC_STATUS_ERROR_FOR_EVENTS_IN_WAIT_LIST]. *)
Definition wait_fails : driver :=
  fake (λ c, match c with clWaitForEvents _ => -14 | _ => 0 end) value_ok 42 [] [7; 8].

(** The binary is reported as three bytes long, and two bytes are written. *)
Definition short_binary : driver :=
  fake (λ _, 0)
       (λ c, match c with
             | clGetProgramInfo _ CL_PROGRAM_BINARY_SIZES _ => 3
             | c => value_ok c
             end)
       42 (encode "ab") [7; 8].

(** No platform at all. *)
Definition no_platforms : driver := fake (λ _, 0) (λ _, 0) 42 [] [].

(** Two devices are counted, and the call that is to fill their
    identifiers writes one and fails with [CL_DEVICE_NOT_FOUND]. *)
Definition device_ids_fail : driver :=
  fake (λ c, match c with clGetDeviceIDs _ _ true => -1 | _ => 0 end) value_ok 42 [] [7].

(** * Properties *)

(** ** Stepping through the monad *)

Lemma bind_unfold {A B} (m : M A) (k : A → M B) (w : world) :
  (m ≫= k) w = match m w with
               | (Ok a, w') => k a w'
               | (Raise e, w') => (Raise e, w')
               end.
Proof. reflexivity. Qed.

Lemma check_zero (w : world) : check 0 w = (Ok tt, w).
Proof. reflexivity. Qed.

Lemma check_nonzero (status : Z) (w : world) :
  status ≠ 0 →
  check status w = (Raise (RuntimeError ("OpenCL Error " +:+ str_of_int status)), w).
Proof. intros H. unfold check. by rewrite decide_True. Qed.

Lemma getattr_some {A} d (f : CLDevice_obj → option A) name a w :
  f (obj w d) = Some a → getattr d f name w = (Ok a, w).
Proof. intros H. unfold getattr. by rewrite H. Qed.

Lemma getattr_none {A} d (f : CLDevice_obj → option A) name w :
  f (obj w d) = None → getattr d f name w = (Raise (AttributeError name), w).
Proof. intros H. unfold getattr. by rewrite H. Qed.

Section Keeps.
Context (R : relation world) `{!PreOrder R}.
Lemma keeps_mret {A} (a : A) : keeps R (mret a).
Proof. intros w. simpl. reflexivity. Qed.

Lemma keeps_raise {A} (e : exn) : keeps R (raise (A:=A) e).
Proof. intros w. simpl. reflexivity. Qed.

Lemma keeps_lift {A} (r : result A) : keeps R (lift r).
Proof. intros w. simpl. reflexivity. Qed.

Lemma keeps_gets {A} (f : world → A) : keeps R (gets f).
Proof. intros w. simpl. reflexivity. Qed.

Lemma keeps_getattr {A} d (f : CLDevice_obj → option A) name : keeps R (getattr d f name).
Proof. intros w. unfold getattr. destruct (f (obj w d)); simpl; reflexivity. Qed.

Lemma keeps_bind {A B} (m : M A) (k : A → M B) :
  keeps R m → (∀ a, keeps R (k a)) → keeps R (m ≫= k).
Proof.
  intros Hm Hk w. rewrite bind_unfold. specialize (Hm w).
  destruct (m w) as [[a|e] w']; simpl in *; [|done].
  etrans; [exact Hm|apply Hk].
Qed.

Lemma keeps_driver_call drv c :
  (∀ w, R w (with_trace (trace w ++ [c]) w)) → keeps R (driver_call drv c).
Proof. intros H w. apply H. Qed.

Lemma keeps_check status : keeps R (check status).
Proof. unfold check. case_decide; [apply keeps_raise|apply keeps_mret]. Qed.

Lemma keeps_checked {A} (a : A) status : keeps R (checked a status).
Proof. apply keeps_bind; [apply keeps_check|intros; apply keeps_mret]. Qed.

Lemma keeps_modify (f : world → world) : (∀ w, R w (f w)) → keeps R (modify f).
Proof. intros H w. apply H. Qed.

Lemma keeps_void {A} (m : M A) : keeps R m → keeps R (void m).
Proof. intros H w. specialize (H w). unfold void. by destruct (m w) as [[a|e] w']. Qed.

Lemma keeps_assoc {B} (m n : M unit) (k : unit → M B) :
  keeps R (m;; n) → (∀ a, keeps R (k a)) → keeps R (m;; n ≫= k).
Proof.
  intros Hmn Hk w. specialize (Hmn w). rewrite !bind_unfold in *.
  destruct (m w) as [[[]|e] w1]; [|done]. rewrite bind_unfold.
  destruct (n w1) as [[a|e] w2] eqn:Hn; simpl in *; [|done].
  etrans; [exact Hmn|apply Hk].
Qed.

End Keeps.

Create HintDb frame discriminated.

(** One step of a frame proof: peel a bind, or close a primitive. *)
Ltac keeps_apply lem := apply lem; try tc_solve.

Ltac keeps_step :=
  lazymatch goal with
  | |- keeps _ (mbind (λ _, mbind _ (CLDevice.elect _)) (setattr _ (set_context _))) =>
    keeps_apply keeps_assoc; [try solve [auto with frame]|intros]
  | |- keeps _ (mbind _ _) => keeps_apply keeps_bind; [|intros]
  | |- keeps _ (mret _) => keeps_apply keeps_mret
  | |- keeps _ (raise _) => keeps_apply keeps_raise
  | |- keeps _ (lift _) => keeps_apply keeps_lift
  | |- keeps _ (gets _) => keeps_apply keeps_gets
  | |- keeps _ (getattr _ _ _) => keeps_apply keeps_getattr
  | |- keeps _ (driver_call _ _) => keeps_apply keeps_driver_call; solve [auto with frame]
  | |- keeps _ (check _) => keeps_apply keeps_check
  | |- keeps _ (checked _ _) => keeps_apply keeps_checked
  | |- keeps _ (void _) => keeps_apply keeps_void
  | |- keeps _ (modify _) => keeps_apply keeps_modify; solve [auto with frame]
  | |- keeps _ (if ?b then _ else _) => destruct b
  | |- keeps _ (match ?x with _ => _ end) => destruct x
  | |- keeps _ (let _ := _ in _) => cbv zeta
  end.

Ltac keeps_auto := repeat keeps_step; auto with frame.

#[local] Instance only_driver_preorder : PreOrder only_driver.
Proof.
  split; [by intros w|].
  intros w1 w2 w3 (?&?&?) (?&?&?). repeat split; congruence.
Qed.

#[local] Instance only_trace_preorder : PreOrder only_trace.
Proof.
  split.
  - intros w. exists []. destruct w. unfold with_trace. simpl. by rewrite app_nil_r.
  - intros w1 w2 w3 [t ->] [t' ->]. exists (t ++ t').
    unfold with_trace. simpl. by rewrite app_assoc.
Qed.

#[local] Instance only_object_preorder self : PreOrder (only_object self).
Proof.
  split; [by intros w|].
  intros w1 w2 w3 (H1&?&?) (H2&?&?). repeat split; try congruence.
  intros d Hd. by rewrite H2, H1.
Qed.

#[local] Instance others_same_preorder self : PreOrder (others_same self).
Proof.
  split; [by intros w|].
  intros w1 w2 w3 H1 H2 d Hd. by rewrite H2, H1.
Qed.

#[local] Instance compiler_context_kept_preorder : PreOrder compiler_context_kept.
Proof.
  split; [by intros w c Hc|].
  intros w1 w2 w3 H1 H2 c Hc. by apply H2, H1.
Qed.

Lemma obj_alter_ne w d self f :
  d ≠ self → obj (with_heap (alter f self (heap w)) w) d = obj w d.
Proof. intros H. unfold obj. simpl. by rewrite list_lookup_alter_ne by done. Qed.

Lemma obj_alter w self f :
  (self < length (heap w))%nat → obj (with_heap (alter f self (heap w)) w) self = f (obj w self).
Proof.
  intros H. unfold obj. simpl. rewrite list_lookup_alter_eq.
  destruct (lookup_lt_is_Some_2 _ _ H) as [o ->]. done.
Qed.

Lemma keeps_setattr_object self f : keeps (only_object self) (setattr self f).
Proof. intros w. repeat split; try done. intros d Hd. by apply obj_alter_ne. Qed.

Lemma only_trace_call w c : only_trace w (with_trace (trace w ++ [c]) w).
Proof. by exists [c]. Qed.

Lemma only_driver_call w c : only_driver w (with_trace (trace w ++ [c]) w).
Proof. done. Qed.

Lemma only_driver_cache w c : only_driver w (with_cache c w).
Proof. done. Qed.

Lemma only_object_call self w c : only_object self w (with_trace (trace w ++ [c]) w).
Proof. done. Qed.

Lemma others_same_call self w c : others_same self w (with_trace (trace w ++ [c]) w).
Proof. by intros d Hd. Qed.

Lemma others_same_device_ids self w v : others_same self w (with_device_ids v w).
Proof. by intros d Hd. Qed.

Lemma others_same_compiler_context self w v : others_same self w (with_compiler_context v w).
Proof. by intros d Hd. Qed.

Lemma compiler_context_kept_call w c : compiler_context_kept w (with_trace (trace w ++ [c]) w).
Proof. by intros c0 Hc. Qed.

Lemma compiler_context_kept_device_ids w v : compiler_context_kept w (with_device_ids v w).
Proof. by intros c0 Hc. Qed.

Lemma compiler_context_kept_heap w h : compiler_context_kept w (with_heap h w).
Proof. by intros c0 Hc. Qed.

#[local] Hint Resolve only_trace_call only_driver_call only_driver_cache only_object_call
  others_same_call others_same_device_ids others_same_compiler_context
  compiler_context_kept_call compiler_context_kept_device_ids
  compiler_context_kept_heap : frame.

Lemma keeps_setattr_others self f : keeps (others_same self) (setattr self f).
Proof. intros w d Hd. by apply obj_alter_ne. Qed.

Lemma keeps_setattr_kept self f : keeps compiler_context_kept (setattr self f).
Proof. by intros w c Hc. Qed.

#[local] Hint Resolve keeps_setattr_object keeps_setattr_others keeps_setattr_kept : frame.

(** *** What each operation leaves alone *)

Lemma compile_cl_frame drv prg : keeps only_driver (compile_cl drv prg).
Proof. unfold compile_cl, diskcache, compile_cl__wrapped__. keeps_auto. Qed.

Lemma bind_args_frame drv self nbufs i bufs :
  keeps only_trace (CLProgram.bind_args drv self nbufs i bufs).
Proof. revert i. induction bufs as [|b bufs IH]; intros i; simpl; keeps_auto. Qed.

Lemma program_init_frame drv d name prg bufs vars :
  keeps only_trace (CLProgram.__init__ drv d name prg bufs vars).
Proof. unfold CLProgram.__init__. keeps_auto. Qed.

Lemma program_del_frame drv p : keeps only_trace (CLProgram.__del__ drv p).
Proof. unfold CLProgram.__del__. keeps_auto. Qed.

Lemma program_call_frame drv OSX p bufs g l wait :
  keeps only_trace (CLProgram.__call__ drv OSX p bufs g l wait).
Proof. unfold CLProgram.__call__. keeps_auto. apply bind_args_frame. Qed.

Lemma alloc_frame drv a size dtype : keeps only_trace (CLAllocator._alloc drv a size dtype).
Proof. unfold CLAllocator._alloc. keeps_auto. Qed.

Lemma free_frame drv a buf : keeps only_trace (CLAllocator._free drv a buf).
Proof. unfold CLAllocator._free. keeps_auto. Qed.

Lemma synchronize_frame drv self : keeps (only_object self) (CLDevice.synchronize drv self).
Proof. unfold CLDevice.synchronize. keeps_auto. Qed.

Lemma copyin_frame drv a dest src :
  keeps (only_object (CLAllocator.device a)) (CLAllocator.copyin drv a dest src).
Proof. unfold CLAllocator.copyin. keeps_auto. Qed.

Lemma copyout_frame drv a dest src :
  keeps (only_object (CLAllocator.device a)) (CLAllocator.copyout drv a dest src).
Proof. unfold CLAllocator.copyout. keeps_auto. apply synchronize_frame. Qed.

Lemma discover_others drv self : keeps (others_same self) (CLDevice.discover drv).
Proof. unfold CLDevice.discover. keeps_auto. Qed.

Lemma discover_kept drv : keeps compiler_context_kept (CLDevice.discover drv).
Proof. unfold CLDevice.discover. keeps_auto. Qed.

Lemma elect_others self : keeps (others_same self) (CLDevice.elect self).
Proof. unfold CLDevice.elect. keeps_auto. Qed.

Lemma elect_kept self : keeps compiler_context_kept (CLDevice.elect self).
Proof.
  intros w c Hc. unfold CLDevice.elect. rewrite bind_unfold. simpl. by rewrite Hc.
Qed.

#[local] Hint Resolve discover_others discover_kept elect_others elect_kept : frame.

Lemma init_others drv self device :
  keeps (others_same self) (CLDevice.__init__ drv self device).
Proof. unfold CLDevice.__init__. keeps_auto. Qed.

Lemma init_kept drv self device :
  keeps compiler_context_kept (CLDevice.__init__ drv self device).
Proof. unfold CLDevice.__init__. keeps_auto. Qed.

Lemma obj_new_object w d : obj (new_object w).2 d = obj w d.
Proof.
  unfold obj. simpl. destruct (decide (d < length (heap w))%nat).
  - by rewrite lookup_app_l.
  - rewrite lookup_app_r by lia. rewrite (lookup_ge_None_2 (heap w)) by lia.
    by destruct (d - length (heap w))%nat.
Qed.

Lemma new_kept drv device : keeps compiler_context_kept (CLDevice.new drv device).
Proof.
  unfold CLDevice.new. keeps_auto.
  - by intros w c Hc.
  - apply init_kept.
Qed.

(** A constructor call changes no object that existed before it. *)
Lemma new_others drv device w d :
  d ≠ length (heap w) → obj (CLDevice.new drv device w).2 d = obj w d.
Proof.
  intros Hd. unfold CLDevice.new. rewrite bind_unfold. unfold new_object at 1.
  cbv beta iota. rewrite bind_unfold.
  pose proof (init_others drv (length (heap w)) device (new_object w).2 d Hd) as H.
  rewrite obj_new_object in H. unfold new_object in H. simpl in H.
  destruct (CLDevice.__init__ drv (length (heap w)) device _)
    as [[[]|e] w']; simpl in *; done.
Qed.

Lemma void_snd {A} (m : M A) w : (void m w).2 = (m w).2.
Proof. unfold void. by destruct (m w) as [[a|e] w']. Qed.

(** An object with an attribute set is an object of the heap. *)
Lemma obj_attr_lt {A} (f : CLDevice_obj → option A) w d a :
  f blank = None → f (obj w d) = Some a → (d < length (heap w))%nat.
Proof.
  intros Hb H. destruct (decide (d < length (heap w))%nat) as [|Hn]; [done|].
  unfold obj in H. rewrite lookup_ge_None_2 in H by lia. simpl in H. congruence.
Qed.

Lemma pending_lt w d l : dev_pending_copyin (obj w d) = Some l → (d < length (heap w))%nat.
Proof. by apply obj_attr_lt. Qed.

Lemma obj_same_heap w w' d : heap w' = heap w → obj w' d = obj w d.
Proof. intros H. unfold obj. by rewrite H. Qed.

(** *** [synchronize] and [copyin], step by step *)

Lemma synchronize_ok drv self w queue l :
  dev_queue (obj w self) = Some queue →
  dev_pending_copyin (obj w self) = Some l →
  r_status (drv (trace w) (clFinish queue)) = 0 →
  CLDevice.synchronize drv self w
  = (Ok tt, with_heap (alter (set_pending_copyin []) self (heap w))
              (with_trace (trace w ++ [clFinish queue]) w)).
Proof.
  intros Hq Hl Hs. unfold CLDevice.synchronize.
  rewrite bind_unfold, (getattr_some _ _ _ queue) by done.
  rewrite bind_unfold. unfold driver_call at 1. cbv beta iota.
  rewrite bind_unfold, Hs, check_zero.
  rewrite bind_unfold, (getattr_some _ _ _ l) by done.
  reflexivity.
Qed.

Lemma synchronize_raises drv self w queue :
  dev_queue (obj w self) = Some queue →
  r_status (drv (trace w) (clFinish queue)) ≠ 0 →
  CLDevice.synchronize drv self w
  = (Raise (RuntimeError ("OpenCL Error "
                          +:+ str_of_int (r_status (drv (trace w) (clFinish queue))))),
     with_trace (trace w ++ [clFinish queue]) w).
Proof.
  intros Hq Hs. unfold CLDevice.synchronize.
  rewrite bind_unfold, (getattr_some _ _ _ queue) by done.
  rewrite bind_unfold. unfold driver_call at 1. cbv beta iota.
  by rewrite bind_unfold, check_nonzero.
Qed.

Lemma copyin_ok drv a dest src w queue l :
  dev_queue (obj w (CLAllocator.device a)) = Some queue →
  dev_pending_copyin (obj w (CLAllocator.device a)) = Some l →
  r_status (drv (trace w)
             (clEnqueueWriteBuffer queue dest false (mv_len src * mv_itemsize src) src)) = 0 →
  CLAllocator.copyin drv a dest src w
  = (Ok tt,
     with_heap (alter (set_pending_copyin (l ++ [src])) (CLAllocator.device a) (heap w))
       (with_trace (trace w ++ [clEnqueueWriteBuffer queue dest false
                                  (mv_len src * mv_itemsize src) src]) w)).
Proof.
  intros Hq Hl Hs. unfold CLAllocator.copyin.
  rewrite bind_unfold, (getattr_some _ _ _ queue) by done.
  rewrite bind_unfold. unfold driver_call at 1. cbv beta iota.
  rewrite bind_unfold, Hs, check_zero.
  rewrite bind_unfold, (getattr_some _ _ _ l) by done.
  reflexivity.
Qed.

Lemma copyin_raises drv a dest src w queue :
  dev_queue (obj w (CLAllocator.device a)) = Some queue →
  let c := clEnqueueWriteBuffer queue dest false (mv_len src * mv_itemsize src) src in
  r_status (drv (trace w) c) ≠ 0 →
  CLAllocator.copyin drv a dest src w
  = (Raise (RuntimeError ("OpenCL Error " +:+ str_of_int (r_status (drv (trace w) c)))),
     with_trace (trace w ++ [c]) w).
Proof.
  intros Hq c Hs. unfold CLAllocator.copyin.
  rewrite bind_unfold, (getattr_some _ _ _ queue) by done.
  rewrite bind_unfold. unfold driver_call at 1. cbv beta iota.
  by rewrite bind_unfold, check_nonzero.
Qed.

Lemma pending_after_set w self l :
  (self < length (heap w))%nat →
  dev_pending_copyin (obj (with_heap (alter (set_pending_copyin l) self (heap w)) w) self)
  = Some l.
Proof. intros H. by rewrite obj_alter. Qed.

(** Every way [synchronize] can end: it returns with the list of [self]
    empty, or it raises with every object as it was. *)
Lemma synchronize_cases drv self w l :
  dev_pending_copyin (obj w self) = Some l →
  ((CLDevice.synchronize drv self w).1 = Ok tt
   ∧ dev_pending_copyin (obj (CLDevice.synchronize drv self w).2 self) = Some [])
  ∨ ((∃ e, (CLDevice.synchronize drv self w).1 = Raise e)
     ∧ heap (CLDevice.synchronize drv self w).2 = heap w).
Proof.
  intros Hl. destruct (dev_queue (obj w self)) as [queue|] eqn:Hq.
  - destruct (decide (r_status (drv (trace w) (clFinish queue)) = 0)) as [Hs|Hs].
    + left. rewrite (synchronize_ok _ _ _ queue l) by done. split; [done|].
      simpl. apply (pending_after_set (with_trace _ w)). simpl. by eapply pending_lt.
    + right. rewrite (synchronize_raises _ _ _ queue) by done. by split; [eexists|].
  - right. unfold CLDevice.synchronize. rewrite !bind_unfold, !getattr_none by done.
    by split; [eexists|].
Qed.

(** Every way [copyin] can end: it returns with the source appended, or it
    raises with every object as it was. *)
Lemma copyin_cases drv a dest src w l :
  dev_pending_copyin (obj w (CLAllocator.device a)) = Some l →
  ((CLAllocator.copyin drv a dest src w).1 = Ok tt
   ∧ dev_pending_copyin (obj (CLAllocator.copyin drv a dest src w).2 (CLAllocator.device a))
     = Some (l ++ [src]))
  ∨ ((∃ e, (CLAllocator.copyin drv a dest src w).1 = Raise e)
     ∧ heap (CLAllocator.copyin drv a dest src w).2 = heap w).
Proof.
  intros Hl. destruct (dev_queue (obj w (CLAllocator.device a))) as [queue|] eqn:Hq.
  - destruct (decide (r_status (drv (trace w)
        (clEnqueueWriteBuffer queue dest false (mv_len src * mv_itemsize src) src)) = 0))
      as [Hs|Hs].
    + left. rewrite (copyin_ok _ _ _ _ _ queue l) by done. split; [done|].
      simpl. apply (pending_after_set (with_trace _ w)). simpl. by eapply pending_lt.
    + right. rewrite (copyin_raises _ _ _ _ _ queue) by done. by split; [eexists|].
  - right. unfold CLAllocator.copyin. rewrite !bind_unfold, !getattr_none by done.
    by split; [eexists|].
Qed.

Lemma copyout_unfold drv a dest src w queue :
  dev_queue (obj w (CLAllocator.device a)) = Some queue →
  let c := clEnqueueReadBuffer queue src false (mv_len dest * mv_itemsize dest) dest in
  let w1 := with_trace (trace w ++ [c]) w in
  CLAllocator.copyout drv a dest src w
  = if decide (r_status (drv (trace w) c) ≠ 0)
    then (Raise (RuntimeError ("OpenCL Error " +:+ str_of_int (r_status (drv (trace w) c)))),
          w1)
    else CLDevice.synchronize drv (CLAllocator.device a) w1.
Proof.
  intros Hq c w1. unfold CLAllocator.copyout.
  rewrite bind_unfold, (getattr_some _ _ _ queue) by done.
  rewrite bind_unfold. unfold driver_call at 1. cbv beta iota.
  rewrite bind_unfold. fold c w1. unfold check. by case_decide.
Qed.

(** Every way [copyout] can end: with [synchronize] having emptied the
    list, or raising with every object as it was. *)
Lemma copyout_cases drv a dest src w l :
  dev_pending_copyin (obj w (CLAllocator.device a)) = Some l →
  ((CLAllocator.copyout drv a dest src w).1 = Ok tt
   ∧ dev_pending_copyin (obj (CLAllocator.copyout drv a dest src w).2 (CLAllocator.device a))
     = Some [])
  ∨ ((∃ e, (CLAllocator.copyout drv a dest src w).1 = Raise e)
     ∧ heap (CLAllocator.copyout drv a dest src w).2 = heap w).
Proof.
  intros Hl. destruct (dev_queue (obj w (CLAllocator.device a))) as [queue|] eqn:Hq.
  2:{ right. unfold CLAllocator.copyout.
      rewrite !bind_unfold, !getattr_none by done. by split; [eexists|]. }
  rewrite (copyout_unfold _ _ _ _ _ queue) by done.
  case_decide; [by right; split; [eexists|]|].
  match goal with
  | |- context [CLDevice.synchronize _ _ ?w1] =>
    apply (synchronize_cases drv (CLAllocator.device a) w1 l Hl)
  end.
Qed.

(** ** The pending copy-in list *)

(** Every operation leaves the pending list of an existing device as it
    was, or is a [copyin] that returned and appended its source, or is a
    [synchronize] (alone or at the end of [copyout]) that returned and
    emptied it. *)
Lemma pending_copyin_step drv OSX o w d l :
  pending_copyin w d = Some l →
  pending_copyin (run_op drv OSX o w) d = Some l
  ∨ (∃ a dest src, o = Copyin a dest src ∧ CLAllocator.device a = d
     ∧ (exec_op drv OSX o w).1 = Ok tt
     ∧ pending_copyin (run_op drv OSX o w) d = Some (l ++ [src]))
  ∨ ((o = Synchronize d ∨ ∃ a dest src, o = Copyout a dest src ∧ CLAllocator.device a = d)
     ∧ (exec_op drv OSX o w).1 = Ok tt
     ∧ pending_copyin (run_op drv OSX o w) d = Some []).
Proof.
  unfold pending_copyin, run_op. intros Hl.
  assert (∀ w', heap w' = heap w → dev_pending_copyin (obj w' d) = Some l) as Hsame.
  { intros w' Hw'. by rewrite (obj_same_heap _ _ _ Hw'). }
  assert (∀ w', only_trace w w' → dev_pending_copyin (obj w' d) = Some l) as Htrace.
  { intros w' [t ->]. by apply Hsame. }
  assert (∀ self w', self ≠ d → only_object self w w' →
            dev_pending_copyin (obj w' d) = Some l) as Hother.
  { intros self w' Hne (Ho&_&_). by rewrite Ho. }
  destruct o as [device|self|prg|d0 name prg bufs vars|p|p bufs g ls wait
                 |a size dtype|a buf|a dest src|a dest src]; simpl;
    rewrite ?void_snd.
  - left. rewrite new_others; [done|]. apply pending_lt in Hl. lia.
  - destruct (decide (self = d)) as [->|Hne].
    + destruct (synchronize_cases drv d w l Hl) as [[Hr Hp]|[_ Hh]].
      * right; right. eauto.
      * left. by apply Hsame.
    + left. eapply Hother; [done|]. apply synchronize_frame.
  - left. apply Hsame. apply (compile_cl_frame drv prg w).
  - left. apply Htrace, program_init_frame.
  - left. apply Htrace, program_del_frame.
  - left. apply Htrace, program_call_frame.
  - left. apply Htrace, alloc_frame.
  - left. apply Htrace, free_frame.
  - destruct (decide (CLAllocator.device a = d)) as [<-|Hne].
    + destruct (copyin_cases drv a dest src w l Hl) as [[Hr Hp]|[_ Hh]].
      * right; left. exists a, dest, src. eauto.
      * left. by apply Hsame.
    + left. eapply Hother; [done|]. apply copyin_frame.
  - destruct (decide (CLAllocator.device a = d)) as [<-|Hne].
    + destruct (copyout_cases drv a dest src w l Hl) as [[Hr Hp]|[_ Hh]].
      * right; right. split; [right; eauto|]. eauto.
      * left. by apply Hsame.
    + left. eapply Hother; [done|]. apply copyout_frame.
Qed.

(** C1.  For every device, the pending copy-in list grows only by [copyin]
    appending its source span, and is emptied only inside [synchronize]:
    every operation of the module leaves the list as it was, or is a
    [copyin] on the device's allocator that appended exactly its source at
    the end, or is a [synchronize] of the device (alone, or as the last
    step of [copyout]) that returned and left the list empty; a [copyin]
    whose write request the driver accepts returns with the source
    appended, and a [synchronize] whose drain call succeeds returns with
    the list empty. *)
Theorem pending_copyin_discipline drv OSX w d l :
  pending_copyin w d = Some l →
  (∀ o,
     pending_copyin (run_op drv OSX o w) d = Some l
     ∨ (∃ a dest src, o = Copyin a dest src ∧ CLAllocator.device a = d
        ∧ (exec_op drv OSX o w).1 = Ok tt
        ∧ pending_copyin (run_op drv OSX o w) d = Some (l ++ [src]))
     ∨ ((o = Synchronize d
         ∨ ∃ a dest src, o = Copyout a dest src ∧ CLAllocator.device a = d)
        ∧ (exec_op drv OSX o w).1 = Ok tt
        ∧ pending_copyin (run_op drv OSX o w) d = Some []))
  ∧ (∀ a dest src queue,
       CLAllocator.device a = d →
       dev_queue (obj w d) = Some queue →
       r_status (drv (trace w)
                  (clEnqueueWriteBuffer queue dest false (mv_len src * mv_itemsize src) src))
       = 0 →
       (CLAllocator.copyin drv a dest src w).1 = Ok tt
       ∧ pending_copyin (CLAllocator.copyin drv a dest src w).2 d = Some (l ++ [src]))
  ∧ (∀ queue,
       dev_queue (obj w d) = Some queue →
       r_status (drv (trace w) (clFinish queue)) = 0 →
       (CLDevice.synchronize drv d w).1 = Ok tt
       ∧ pending_copyin (CLDevice.synchronize drv d w).2 d = Some []).
Proof.
  intros Hl. split; [|split].
  - intros o. by apply pending_copyin_step.
  - intros a dest src queue <- Hq Hs. unfold pending_copyin in *.
    rewrite (copyin_ok _ _ _ _ _ queue l) by done. split; [done|].
    simpl. apply (pending_after_set (with_trace _ w)). simpl. by eapply pending_lt.
  - intros queue Hq Hs. unfold pending_copyin in *.
    rewrite (synchronize_ok _ _ _ queue l) by done. split; [done|].
    simpl. apply (pending_after_set (with_trace _ w)). simpl. by eapply pending_lt.
Qed.

(** C10.  [synchronize] leaves the pending copy-in lists alone when it
    fails: if the drain call returns a status other than success,
    [synchronize] raises the driver error with that status and the pending
    list of every device is what it was. *)
Theorem synchronize_failure_keeps_pending drv w self queue :
  dev_queue (obj w self) = Some queue →
  r_status (drv (trace w) (clFinish queue)) ≠ 0 →
  (CLDevice.synchronize drv self w).1
  = Raise (RuntimeError ("OpenCL Error "
                         +:+ str_of_int (r_status (drv (trace w) (clFinish queue)))))
  ∧ (CLDevice.synchronize drv self w).2 = with_trace (trace w ++ [clFinish queue]) w
  ∧ ∀ d, pending_copyin (CLDevice.synchronize drv self w).2 d = pending_copyin w d.
Proof.
  intros Hq Hs. by rewrite (synchronize_raises _ _ _ queue).
Qed.

(** ** The compiler context *)

#[local] Instance preserved_preorder I : PreOrder (preserved I).
Proof. split; [by intros w H|]. intros w1 w2 w3 H1 H2 H. by apply H2, H1. Qed.

Lemma ensures_later {A B} (m : M A) (k : A → M B) Q :
  (∀ a, ensures (k a) Q) → ensures (m ≫= k) Q.
Proof.
  intros Hk w b w'. rewrite bind_unfold.
  destruct (m w) as [[a|e] w1]; [|done]. apply Hk.
Qed.

Lemma ensures_now {A B} (m : M A) (k : A → M B) Q :
  ensures m Q → (∀ a, keeps (preserved Q) (k a)) → ensures (m ≫= k) Q.
Proof.
  intros Hm Hk w b w'. rewrite bind_unfold.
  destruct (m w) as [[a|e] w1] eqn:Hmw; [|done]. intros Hkw.
  specialize (Hk a w1). rewrite Hkw in Hk. apply Hk. by eapply Hm.
Qed.

(** No operation other than a constructor call writes the compiler
    context. *)
Lemma run_op_compiler_context drv OSX o w :
  (∀ device, o ≠ NewDevice device) →
  compiler_context (run_op drv OSX o w) = compiler_context w.
Proof.
  intros Hne. unfold run_op.
  assert (∀ w', only_trace w w' → compiler_context w' = compiler_context w) as Htrace.
  { by intros w' [t ->]. }
  assert (∀ self w', only_object self w w' → compiler_context w' = compiler_context w)
    as Hobj.
  { by intros self w' (_&?&_). }
  destruct o; simpl; rewrite ?void_snd.
  - by destruct (Hne device eq_refl).
  - eapply Hobj, synchronize_frame.
  - apply (compile_cl_frame drv prg w).
  - apply Htrace, program_init_frame.
  - apply Htrace, program_del_frame.
  - apply Htrace, program_call_frame.
  - apply Htrace, alloc_frame.
  - apply Htrace, free_frame.
  - eapply Hobj, copyin_frame.
  - eapply Hobj, copyout_frame.
Qed.

(** A compiler context that is set survives every operation. *)
Lemma run_op_kept drv OSX o w c :
  compiler_context w = Some c → compiler_context (run_op drv OSX o w) = Some c.
Proof.
  intros Hc. destruct o as [device| | | | | | | | |].
  { unfold run_op. simpl. rewrite void_snd. by apply new_kept. }
  all: by rewrite run_op_compiler_context.
Qed.

Lemma run_ops_kept drv OSX os w c :
  compiler_context w = Some c → compiler_context (run_ops drv OSX os w) = Some c.
Proof.
  revert w. induction os as [|o os IH]; intros w Hc; [done|].
  simpl. apply IH. by apply run_op_kept.
Qed.

Lemma elected_iff_context_call self w c :
  preserved (elected_iff_context self) w (with_trace (trace w ++ [c]) w).
Proof. by intros H. Qed.

Lemma elected_iff_context_device_ids self w v :
  preserved (elected_iff_context self) w (with_device_ids v w).
Proof. by intros H. Qed.

(** Assigning an attribute other than [context] does not matter. *)
Lemma elected_iff_context_setattr self f :
  (∀ o, dev_context (f o) = dev_context o) →
  keeps (preserved (elected_iff_context self)) (setattr self f).
Proof.
  intros Hf w [Hlt Hc]. split; simpl.
  - by rewrite length_alter.
  - rewrite obj_alter by done. by rewrite Hf.
Qed.

(** Lines 96-97 together: assigning [self.context], then electing. *)
Lemma elected_iff_context_elect self context :
  keeps (preserved (elected_iff_context self))
    (setattr self (set_context context);; CLDevice.elect self).
Proof.
  intros w [Hlt Hc]. rewrite bind_unfold. simpl.
  unfold CLDevice.elect. rewrite bind_unfold. simpl.
  split.
  - destruct (compiler_context w); simpl; by rewrite length_alter.
  - destruct (compiler_context w) as [c|] eqn:Hcc; simpl.
    + rewrite (obj_alter w) by done. simpl.
      destruct (dev_context (obj w self)); congruence.
    + unfold obj. simpl. rewrite list_lookup_alter_eq.
      by destruct (lookup_lt_is_Some_2 _ _ Hlt) as [o ->].
Qed.

#[local] Hint Resolve elected_iff_context_call elected_iff_context_device_ids : frame.

Lemma discover_elected drv self :
  keeps (preserved (elected_iff_context self)) (CLDevice.discover drv).
Proof. unfold CLDevice.discover. keeps_auto. Qed.

Lemma set_device_id_context v o : dev_context (set_device_id v o) = dev_context o.
Proof. done. Qed.
Lemma set_queue_context v o : dev_context (set_queue v o) = dev_context o.
Proof. done. Qed.
Lemma set_pending_copyin_context v o : dev_context (set_pending_copyin v o) = dev_context o.
Proof. done. Qed.

#[local] Hint Resolve discover_elected elected_iff_context_elect elected_iff_context_setattr
  set_device_id_context set_queue_context set_pending_copyin_context : frame.

Lemma init_elected drv self device :
  keeps (preserved (elected_iff_context self)) (CLDevice.__init__ drv self device).
Proof. unfold CLDevice.__init__. keeps_auto. Qed.

Lemma has_context_call self w c :
  preserved (has_context self) w (with_trace (trace w ++ [c]) w).
Proof. by intros H. Qed.

Lemma has_context_setattr self d f :
  (∀ o, dev_context (f o) = dev_context o) →
  keeps (preserved (has_context self)) (setattr d f).
Proof.
  intros Hf w. unfold preserved, has_context, obj. simpl.
  destruct (decide (d = self)) as [->|Hne].
  - rewrite list_lookup_alter_eq. destruct (heap w !! self); simpl; [|done].
    by rewrite Hf.
  - by rewrite list_lookup_alter_ne.
Qed.

#[local] Hint Resolve has_context_call has_context_setattr : frame.

(** An initialisation that returns has assigned [self.context]: line 98
    reads it after the election. *)
Lemma init_ok_context drv self device :
  ensures (CLDevice.__init__ drv self device) (has_context self).
Proof.
  unfold CLDevice.__init__.
  repeat lazymatch goal with
  | |- ensures (mbind _ (getattr _ dev_context _)) _ => fail
  | |- ensures (mbind _ _) _ => apply ensures_later; intros
  end.
  apply ensures_now.
  - intros w c w'. unfold getattr, has_context.
    destruct (dev_context (obj w self)) eqn:H; [|done].
    intros [= _ <-]. by rewrite H.
  - intros. keeps_auto.
Qed.

Lemma new_unfold drv device w :
  CLDevice.new drv device w
  = match CLDevice.__init__ drv (length (heap w)) device (new_object w).2 with
    | (Ok _, w') => (Ok (length (heap w)), w')
    | (Raise e, w') => (Raise e, w')
    end.
Proof.
  unfold CLDevice.new. rewrite bind_unfold. unfold new_object. cbv beta iota.
  rewrite bind_unfold. simpl.
  by destruct (CLDevice.__init__ drv (length (heap w)) device _) as [[[]|e] w'].
Qed.

(** A constructor call returns the object it created. *)
Lemma new_result drv device w d :
  (CLDevice.new drv device w).1 = Ok d → d = length (heap w).
Proof.
  rewrite new_unfold.
  destruct (CLDevice.__init__ drv (length (heap w)) device (new_object w).2)
    as [[[]|e] w']; simpl; congruence.
Qed.

Lemma new_ok_context drv device w d :
  (CLDevice.new drv device w).1 = Ok d → has_context d (CLDevice.new drv device w).2.
Proof.
  intros H. pose proof (new_result _ _ _ _ H) as ->. revert H.
  rewrite new_unfold.
  destruct (CLDevice.__init__ drv (length (heap w)) device (new_object w).2)
    as [[[]|e] w'] eqn:Hi; simpl; [|done].
  intros _. by eapply init_ok_context.
Qed.

(** A constructor call made while there is no compiler context leaves the
    new object as the compiler context exactly when it got as far as
    assigning the object's driver context. *)
Lemma new_elected drv device w :
  compiler_context w = None →
  elected_iff_context (length (heap w)) (CLDevice.new drv device w).2.
Proof.
  intros Hc.
  assert (elected_iff_context (length (heap w)) (new_object w).2) as H0.
  { split.
    - simpl. rewrite length_app. simpl. lia.
    - rewrite obj_new_object. unfold obj. rewrite lookup_ge_None_2 by lia. done. }
  apply (init_elected drv _ device) in H0.
  rewrite new_unfold.
  by destruct (CLDevice.__init__ drv (length (heap w)) device (new_object w).2)
    as [[[]|e] w'].
Qed.

(** C7, as the code has it.  The compiler context is written at most once.
    No operation but a constructor call writes it, and once it is set no
    sequence of operations changes it.  A constructor call made while
    there is none makes the new object the compiler context exactly when
    the call got as far as creating the object's driver context (also when
    the call then raises), and leaves none otherwise.  A constructor call
    that returns, returns the new object; if there was no compiler context
    it is now that object, and from then on the compiler context is never
    null and never changes. *)
Theorem compiler_context_written_once drv OSX w :
  (∀ c os, compiler_context w = Some c →
           compiler_context (run_ops drv OSX os w) = Some c)
  ∧ (∀ o, (∀ device, o ≠ NewDevice device) →
          compiler_context (run_op drv OSX o w) = compiler_context w)
  ∧ (∀ device,
       compiler_context w = None →
       compiler_context (CLDevice.new drv device w).2
       = if dev_context (obj (CLDevice.new drv device w).2 (length (heap w))) is Some _
         then Some (length (heap w)) else None)
  ∧ (∀ device d,
       (CLDevice.new drv device w).1 = Ok d →
       d = length (heap w)
       ∧ (compiler_context w = None →
          compiler_context (CLDevice.new drv device w).2 = Some d)
       ∧ ∀ os,
           compiler_context (run_ops drv OSX os (CLDevice.new drv device w).2) ≠ None
           ∧ compiler_context (run_ops drv OSX os (CLDevice.new drv device w).2)
             = compiler_context (CLDevice.new drv device w).2).
Proof.
  split; [|split; [|split]].
  - intros c os. apply run_ops_kept.
  - intros o. apply run_op_compiler_context.
  - intros device Hc. by destruct (new_elected drv device w Hc).
  - intros device d Hd. pose proof (new_result _ _ _ _ Hd) as ->.
    pose proof (new_ok_context _ _ _ _ Hd) as [context Hctx].
    assert (∃ c, compiler_context (CLDevice.new drv device w).2 = Some c) as [c Hc'].
    { destruct (compiler_context w) as [c|] eqn:Hc.
      - exists c. by apply new_kept.
      - destruct (new_elected drv device w Hc) as [_ ->]. rewrite Hctx. eauto. }
    split; [done|split].
    + intros Hc. destruct (new_elected drv device w Hc) as [_ ->]. by rewrite Hctx.
    + intros os. rewrite (run_ops_kept _ _ _ _ c) by done. by rewrite Hc'.
Qed.

(** C7, as the spec states it, fails.  The first constructor call, for
    device [0], creates its driver context, is elected, and then raises
    because the driver refuses the command queue; the second call, for
    device [1], returns the first Device the process ever gets, and that
    Device is not the compiler context. *)
Lemma first_constructed_not_compiler_context :
  let attempt1 := CLDevice.new no_queue_on_first_device NoSuffix (fresh ∅) in
  let attempt2 := CLDevice.new no_queue_on_first_device (Suffix 1) attempt1.2 in
  attempt1.1 = Raise (RuntimeError "OpenCL Error -35")
  ∧ attempt2.1 = Ok 1%nat
  ∧ compiler_context attempt2.2 = Some 0%nat
  ∧ compiler_context attempt2.2 ≠ Some 1%nat
  ∧ dev_queue (obj attempt2.2 0) = None.
Proof. vm_compute. by repeat split. Qed.

(** ** Compiling *)

Lemma wrapped_without_context drv prg w :
  compiler_context w = None →
  compile_cl__wrapped__ drv prg w = (Raise (AssertionError compiler_context_required), w).
Proof.
  intros Hc. unfold compile_cl__wrapped__. rewrite bind_unfold. simpl. by rewrite Hc.
Qed.

Lemma diskcache_hit func key w stored :
  cache w !! key = Some stored → diskcache func key w = (Ok stored, w).
Proof. intros H. unfold diskcache. rewrite bind_unfold. simpl. by rewrite H. Qed.

Lemma diskcache_miss_raise func key w e w' :
  cache w !! key = None → func key w = (Raise e, w') →
  diskcache func key w = (Raise e, w').
Proof.
  intros H Hf. unfold diskcache. rewrite bind_unfold. simpl. rewrite H.
  by rewrite bind_unfold, Hf.
Qed.

(** C2, as the code has it.  While no compiler context exists, the body of
    [compile_cl] fails for every source with the assertion error whose
    message asks to initialise a device first, without a driver call and
    without a change of state; so does [compile_cl] for every source that
    the persistent cache does not hold.  For a source the cache holds,
    [compile_cl] returns the stored bytes. *)
Theorem compile_without_context drv prg w :
  compiler_context w = None →
  compile_cl__wrapped__ drv prg w = (Raise (AssertionError compiler_context_required), w)
  ∧ (cache w !! prg = None →
     compile_cl drv prg w = (Raise (AssertionError compiler_context_required), w))
  ∧ (∀ stored, cache w !! prg = Some stored → compile_cl drv prg w = (Ok stored, w))
  ∧ contains compiler_context_required "init a device before you call this".
Proof.
  intros Hc. split; [|split; [|split]].
  - by apply wrapped_without_context.
  - intros Hmiss. apply diskcache_miss_raise; [done|]. by apply wrapped_without_context.
  - intros stored Hhit. by apply diskcache_hit.
  - exists ("OpenCL requires a " +:+ dquote +:+ "compiler_context" +:+ dquote
            +:+ " to compile, "), EmptyString.
    reflexivity.
Qed.

(** C2, as the spec states it, fails: with no device ever constructed, a
    source that an earlier process left in the cache compiles, silently. *)
Lemma compile_cached_without_context :
  let w := fresh {[ "kernel" := [Byte.x01] ]} in
  compiler_context w = None
  ∧ heap w = []
  ∧ compile_cl ok_driver "kernel" w = (Ok [Byte.x01], w).
Proof. repeat split. Qed.

Lemma append_empty_r (s : string) : s +:+ EmptyString = s.
Proof.
  induction s as [|a s IH]; [done|].
  change (String a (s +:+ EmptyString) = String a s). by f_equal.
Qed.

(** What [compile_cl] does when the build fails. *)
Lemma wrapped_build_failed drv prg w cctx context device_id :
  compiler_context w = Some cctx →
  dev_context (obj w cctx) = Some context →
  dev_device_id (obj w cctx) = Some device_id →
  let c1 := clCreateProgramWithSource context (encode prg)
              (Z.of_nat (length (encode prg))) in
  let program := r_handle (drv (trace w) c1) in
  let c2 := clBuildProgram program device_id in
  let c3 := clGetProgramBuildInfo program device_id 0 false true in
  let log_size := r_value (drv (trace w ++ [c1; c2]) c3) in
  let c4 := clGetProgramBuildInfo program device_id log_size true false in
  r_status (drv (trace w) c1) = 0 →
  r_status (drv (trace w ++ [c1]) c2) ≠ 0 →
  compile_cl__wrapped__ drv prg w
  = (match decode (filled Byte.x00 log_size (r_bytes (drv (trace w ++ [c1; c2; c3]) c4))) with
     | Ok log => Raise (RuntimeError ("OpenCL Compile Error" +:+ nl +:+ nl +:+ log))
     | Raise e => Raise e
     end, with_trace (trace w ++ [c1; c2; c3; c4]) w).
Proof.
  intros Hc Hctx Hdev c1 program c2 c3 log_size c4 H1 H2.
  unfold compile_cl__wrapped__. rewrite bind_unfold. simpl. rewrite Hc.
  rewrite bind_unfold, (getattr_some _ _ _ context) by done.
  rewrite bind_unfold. unfold driver_call at 1. cbv beta iota. fold c1.
  rewrite bind_unfold. unfold checked. rewrite bind_unfold. rewrite H1, check_zero.
  simpl. rewrite bind_unfold, (getattr_some _ _ _ device_id) by done.
  rewrite bind_unfold. unfold driver_call at 1. cbv beta iota. simpl trace.
  fold program c2. rewrite decide_True by done.
  rewrite bind_unfold. unfold driver_call at 1. cbv beta iota. simpl trace.
  rewrite bind_unfold. unfold driver_call at 1. cbv beta iota. simpl trace.
  rewrite <- !(assoc_L (++)). simpl app. fold c3 log_size c4.
  rewrite bind_unfold. unfold lift.
  by destruct (decode _) as [log|e].
Qed.

(** C3.  When the driver's build step returns a status other than
    success, [compile_cl] asks for the size of the build log, fetches the
    log into a buffer of that size and decodes it; it returns no bytes,
    makes no further driver call, and stores nothing in the cache.  When
    the log is valid UTF-8, it raises the compile error (the
    [RuntimeError] that starts with [OpenCL Compile Error]) whose message
    holds the decoded log; when it is not, the error of the decoding is
    raised in its place. *)
Theorem build_failure_raises_compile_error drv prg w cctx context device_id :
  compiler_context w = Some cctx →
  dev_context (obj w cctx) = Some context →
  dev_device_id (obj w cctx) = Some device_id →
  let c1 := clCreateProgramWithSource context (encode prg)
              (Z.of_nat (length (encode prg))) in
  let program := r_handle (drv (trace w) c1) in
  let c2 := clBuildProgram program device_id in
  let c3 := clGetProgramBuildInfo program device_id 0 false true in
  let log_size := r_value (drv (trace w ++ [c1; c2]) c3) in
  let c4 := clGetProgramBuildInfo program device_id log_size true false in
  let raw := filled Byte.x00 log_size (r_bytes (drv (trace w ++ [c1; c2; c3]) c4)) in
  r_status (drv (trace w) c1) = 0 →
  r_status (drv (trace w ++ [c1]) c2) ≠ 0 →
  ∃ e,
    compile_cl__wrapped__ drv prg w
    = (Raise e, with_trace (trace w ++ [c1; c2; c3; c4]) w)
    ∧ (cache w !! prg = None →
       compile_cl drv prg w = (Raise e, with_trace (trace w ++ [c1; c2; c3; c4]) w))
    ∧ (utf8_valid raw = true →
       ∃ log msg,
         decode raw = Ok log ∧ encode log = raw
         ∧ e = RuntimeError msg
         ∧ msg = "OpenCL Compile Error" +:+ nl +:+ nl +:+ log
         ∧ contains msg log)
    ∧ (utf8_valid raw = false → e = UnicodeDecodeError).
Proof.
  intros Hc Hctx Hdev c1 program c2 c3 log_size c4 raw H1 H2.
  pose proof (wrapped_build_failed drv prg w cctx context device_id Hc Hctx Hdev H1 H2) as Hw.
  cbv zeta in Hw. fold c1 program c2 c3 log_size c4 raw in Hw.
  unfold decode in *. destruct (utf8_valid raw) eqn:Hv.
  - eexists. split; [exact Hw|split; [|split; [|done]]].
    + intros Hmiss. by apply diskcache_miss_raise.
    + intros _. eexists _, _. split; [reflexivity|].
      split; [apply list_byte_of_string_of_list_byte|].
      split; [reflexivity|split; [reflexivity|]].
      exists ("OpenCL Compile Error" +:+ nl +:+ nl), EmptyString.
      by rewrite append_empty_r.
  - eexists. split; [exact Hw|split; [|split; [done|done]]].
    intros Hmiss. by apply diskcache_miss_raise.
Qed.

(** C3, as the spec states it, fails: the build fails and the log the
    driver hands back is the one byte [0xff], which is not UTF-8; the call
    raises the error of the decoding, and no compile error. *)
Lemma build_failure_undecodable_log :
  r_status (undecodable_log
              (trace one_device ++ [clCreateProgramWithSource 42 (encode "kernel") 6])
              (clBuildProgram 42 7)) ≠ 0
  ∧ (compile_cl undecodable_log "kernel" one_device).1 = Raise UnicodeDecodeError
  ∧ ∀ msg, (compile_cl undecodable_log "kernel" one_device).1 ≠ Raise (RuntimeError msg).
Proof.
  split; [vm_compute; discriminate|].
  assert ((compile_cl undecodable_log "kernel" one_device).1 = Raise UnicodeDecodeError)
    as H by reflexivity.
  split; [exact H|]. intros msg. rewrite H. discriminate.
Qed.

(** ** Calling a program *)

Lemma dispatches_app t t' : dispatches (t ++ t') = dispatches t ++ dispatches t'.
Proof. unfold dispatches. by rewrite omap_app. Qed.

#[local] Instance no_dispatch_preorder : PreOrder no_dispatch.
Proof.
  split.
  - intros w. exists []. split; [|done]. destruct w. unfold with_trace. simpl.
    by rewrite app_nil_r.
  - intros w1 w2 w3 (t&->&Ht) (t'&->&Ht'). exists (t ++ t'). split.
    + unfold with_trace. simpl. by rewrite app_assoc.
    + by rewrite dispatches_app, Ht, Ht'.
Qed.

Lemma no_dispatch_call w c :
  dispatches [c] = [] → no_dispatch w (with_trace (trace w ++ [c]) w).
Proof. intros H. by exists [c]. Qed.

#[local] Hint Extern 1 (no_dispatch _ (with_trace (trace _ ++ [_]) _)) =>
  apply no_dispatch_call; reflexivity : frame.

(** Binding the arguments dispatches nothing. *)
Lemma bind_args_no_dispatch drv self nbufs i bufs :
  keeps no_dispatch (CLProgram.bind_args drv self nbufs i bufs).
Proof. revert i. induction bufs as [|b bufs IH]; intros i; simpl; keeps_auto. Qed.

(** The answers of the driver to [clSetKernelArg] play no part in what the
    binding loop does. *)
Lemma bind_args_any_driver drv drv' self nbufs i bufs w :
  CLProgram.bind_args drv self nbufs i bufs w
  = CLProgram.bind_args drv' self nbufs i bufs w.
Proof.
  revert i w. induction bufs as [|b bufs IH]; intros i w; simpl; [done|].
  rewrite !bind_unfold. unfold lift.
  destruct (CLProgram.bound_value self nbufs i b) as [bc|e]; [|done].
  rewrite !bind_unfold. unfold driver_call. apply IH.
Qed.

(** The binding loop raises nothing but [TypeError]. *)
Lemma bind_args_raises drv self nbufs i bufs w e :
  (CLProgram.bind_args drv self nbufs i bufs w).1 = Raise e → e = TypeError.
Proof.
  revert i w. induction bufs as [|b bufs IH]; intros i w; simpl; [done|].
  rewrite !bind_unfold. unfold lift.
  destruct (CLProgram.bound_value self nbufs i b) as [bc|e'] eqn:Hb.
  - rewrite !bind_unfold. unfold driver_call. apply IH.
  - simpl. intros [= <-]. unfold CLProgram.bound_value in Hb.
    by repeat case_match; simplify_eq.
Qed.

Section Call.
Context (drv : driver) (OSX : bool) (self : CLProgram.t) (bufs : list pyarg).
Context (w w1 : world) (queue : handle).
Hypothesis Hbind :
  CLProgram.bind_args drv self (Z.of_nat (length bufs)) 0 bufs w = (Ok tt, w1).
Hypothesis Hqueue : dev_queue (obj w (CLProgram.device self)) = Some queue.

Lemma bind_args_world : no_dispatch w w1.
Proof.
  pose proof (bind_args_no_dispatch drv self (Z.of_nat (length bufs)) 0 bufs w) as H.
  by rewrite Hbind in H.
Qed.

Lemma queue_after_bind : dev_queue (obj w1 (CLProgram.device self)) = Some queue.
Proof. destruct bind_args_world as (t&->&_). exact Hqueue. Qed.

(** Every way a call whose arguments bind can end. *)
Lemma call_result global_size local_size wait :
  let gws := CLProgram.dispatch_size global_size local_size in
  let c1 := clEnqueueNDRangeKernel queue (CLProgram.kernel self) (Z.of_nat (length gws))
              (size_t_array gws) (size_t_array <$> CLProgram.local_work_size local_size)
              wait in
  let r1 := drv (trace w1) c1 in
  let c2 := clWaitForEvents (r_handle r1) in
  let r2 := drv (trace w1 ++ [c1]) c2 in
  let c3 := clGetEventProfilingInfo (r_handle r1) CL_PROFILING_COMMAND_START in
  let r3 := drv (trace w1 ++ [c1; c2]) c3 in
  let c4 := clGetEventProfilingInfo (r_handle r1) CL_PROFILING_COMMAND_END in
  let r4 := drv (trace w1 ++ [c1; c2; c3]) c4 in
  CLProgram.__call__ drv OSX self bufs global_size local_size wait w
  = if decide (r_status r1 ≠ 0)
    then (Raise (driver_error (r_status r1)), with_trace (trace w1 ++ [c1]) w1)
    else if wait then
      if decide (r_status r2 ≠ 0)
      then (Raise (driver_error (r_status r2)), with_trace (trace w1 ++ [c1; c2]) w1)
      else if decide (r_status r3 ≠ 0)
      then (Raise (driver_error (r_status r3)), with_trace (trace w1 ++ [c1; c2; c3]) w1)
      else if decide (r_status r4 ≠ 0)
      then (Raise (driver_error (r_status r4)),
            with_trace (trace w1 ++ [c1; c2; c3; c4]) w1)
      else (Ok (Some (float_of_int (r_value r4 - r_value r3)
                      * OSX_TIMING_RATIO OSX * nano)%float),
            with_trace (trace w1 ++ [c1; c2; c3; c4]) w1)
    else (Ok None, with_trace (trace w1 ++ [c1]) w1).
Proof.
  destruct wait; intros gws c1 r1 c2 r2 c3 r3 c4 r4;
    unfold CLProgram.__call__; rewrite bind_unfold, Hbind;
    rewrite bind_unfold, (getattr_some _ _ _ queue) by apply queue_after_bind;
    rewrite bind_unfold; unfold driver_call at 1; cbv beta iota;
    fold gws; fold c1 r1; rewrite bind_unfold; unfold check at 1;
    (destruct (decide (r_status r1 ≠ 0)) as [|_]; [done|]); [|done].
  cbv beta iota. unfold mret at 1, M_ret at 1. cbv beta iota.
  rewrite bind_unfold. unfold driver_call at 1. cbv beta iota. simpl trace.
  fold c2 r2. rewrite bind_unfold. unfold check at 1.
  destruct (decide (r_status r2 ≠ 0)) as [|_].
  { simpl. by rewrite <- (assoc_L (++)). }
  unfold mret at 1, M_ret at 1. cbv beta iota.
  rewrite bind_unfold. unfold driver_call at 1. cbv beta iota. simpl trace.
  rewrite <- !(assoc_L (++)). simpl app. fold c3 r3.
  rewrite bind_unfold. unfold check at 1.
  destruct (decide (r_status r3 ≠ 0)) as [|_]; [done|].
  unfold mret at 1, M_ret at 1. cbv beta iota.
  rewrite bind_unfold. unfold driver_call at 1. cbv beta iota. simpl trace.
  rewrite <- !(assoc_L (++)). simpl app. fold c4 r4.
  rewrite bind_unfold. unfold check at 1.
  destruct (decide (r_status r4 ≠ 0)) as [|_]; done.
Qed.

(** The one kernel dispatch of the call. *)
Lemma call_dispatches global_size local_size wait :
  let gws := CLProgram.dispatch_size global_size local_size in
  dispatches (calls_made (CLProgram.__call__ drv OSX self bufs global_size local_size wait) w)
  = [(Z.of_nat (length gws), size_t_array gws)].
Proof.
  intros gws. unfold calls_made. rewrite call_result. fold gws.
  destruct bind_args_world as (t&->&Ht). simpl trace.
  assert (∀ c t', dispatches [c] = [(Z.of_nat (length gws), size_t_array gws)] →
            dispatches t' = [] →
            dispatches (drop (length (trace w)) ((trace w ++ t) ++ c :: t'))
            = [(Z.of_nat (length gws), size_t_array gws)]) as H.
  { intros c t' Hc Ht'. rewrite <- (assoc_L (++)), drop_app_length.
    change (c :: t') with ([c] ++ t'). by rewrite !dispatches_app, Ht, Hc, Ht'. }
  repeat case_match; simpl trace; by apply H.
Qed.

End Call.

(** C4.  In a program call whose arguments bind, the driver receives one
    dispatch.  When [local_size] is given with the rank of [global_size],
    the dispatch has that rank and its size in every dimension [i] is
    [global_size[i] * local_size[i]] as a [c_size_t], that is modulo
    [2^64]: the product itself whenever it is at least [0] and less than
    [2^64].  When [local_size] is omitted, the dispatch size is
    [global_size], each entry likewise a [c_size_t]. *)
Theorem dispatch_size_is_product drv OSX self bufs global_size local_size wait w w1 queue :
  CLProgram.bind_args drv self (Z.of_nat (length bufs)) 0 bufs w = (Ok tt, w1) →
  dev_queue (obj w (CLProgram.device self)) = Some queue →
  match local_size with
  | Some ls =>
    length ls = length global_size →
    ∃ gws,
      dispatches (calls_made
                    (CLProgram.__call__ drv OSX self bufs global_size local_size wait) w)
      = [(Z.of_nat (length global_size), gws)]
      ∧ length gws = length global_size
      ∧ (∀ i g l, global_size !! i = Some g → ls !! i = Some l →
           gws !! i = Some ((g * l) mod 2 ^ 64))
      ∧ (∀ i g l, global_size !! i = Some g → ls !! i = Some l →
           0 ≤ g * l < 2 ^ 64 → gws !! i = Some (g * l))
  | None =>
    ∃ gws,
      dispatches (calls_made
                    (CLProgram.__call__ drv OSX self bufs global_size local_size wait) w)
      = [(Z.of_nat (length global_size), gws)]
      ∧ length gws = length global_size
      ∧ (∀ i g, global_size !! i = Some g → gws !! i = Some (g mod 2 ^ 64))
      ∧ (Forall (λ g, 0 ≤ g < 2 ^ 64) global_size → gws = global_size)
  end.
Proof.
  intros Hbind Hq. destruct local_size as [ls|].
  - intros Hrank. exists (size_t_array (zip_with Z.mul global_size ls)).
    rewrite (call_dispatches drv OSX self bufs w w1 queue Hbind Hq). simpl.
    unfold size_t_array. rewrite length_fmap, length_zip_with_l_eq by done.
    assert (∀ i g l, global_size !! i = Some g → ls !! i = Some l →
              (size_t <$> zip_with Z.mul global_size ls) !! i = Some ((g * l) mod 2 ^ 64))
      as Hmod.
    { intros i g l Hg Hl. by rewrite list_lookup_fmap, lookup_zip_with, Hg, Hl. }
    split; [done|split; [done|split; [exact Hmod|]]].
    intros i g l Hg Hl Hrange. rewrite (Hmod i g l Hg Hl). f_equal. by apply Z.mod_small.
  - exists (size_t_array global_size).
    rewrite (call_dispatches drv OSX self bufs w w1 queue Hbind Hq). simpl.
    unfold size_t_array. rewrite length_fmap.
    split; [done|split; [done|split]].
    + intros i g Hg. by rewrite list_lookup_fmap, Hg.
    + intros Hall. apply list_eq. intros i. rewrite list_lookup_fmap.
      destruct (global_size !! i) as [g|] eqn:Hg; [|done].
      simpl. f_equal. apply Z.mod_small. exact (Forall_lookup_1 _ _ _ _ Hall Hg).
Qed.

(** C4, as the spec states it, fails: the two group counts [2^62] and [4]
    are sizes the driver's type holds, their product [2^64] is not, and the
    driver is handed [0] in that dimension. *)
Lemma dispatch_product_out_of_range :
  ∃ gws,
    dispatches (calls_made
                  (CLProgram.__call__ ok_driver false program0 args0 [2 ^ 62; 3] (Some [4; 5])
                     false) one_device)
    = [(2, gws)]
    ∧ gws !! 0%nat = Some 0
    ∧ gws !! 0%nat ≠ Some (2 ^ 62 * 4).
Proof. exists [0; 15]. split; [reflexivity|]. split; [reflexivity|]. discriminate. Qed.

(** C9.  When [local_size] is given, whatever its rank and that of
    [global_size], the call raises no error of its own: the tuple of line
    55 has as many entries as the shorter of the two tuples, each the
    product of the two entries at its index; its length is the dimension of
    the one dispatch, and the driver is handed its entries as [c_size_t],
    that is modulo [2^64].  An exception, if there is one, is the driver
    error for a status other than success. *)
Theorem rank_mismatch_truncates drv OSX self bufs global_size ls wait w w1 queue :
  CLProgram.bind_args drv self (Z.of_nat (length bufs)) 0 bufs w = (Ok tt, w1) →
  dev_queue (obj w (CLProgram.device self)) = Some queue →
  ∃ tuple,
    length tuple = (length global_size `min` length ls)%nat
    ∧ (∀ i g l, global_size !! i = Some g → ls !! i = Some l → tuple !! i = Some (g * l))
    ∧ dispatches (calls_made
                    (CLProgram.__call__ drv OSX self bufs global_size (Some ls) wait) w)
      = [(Z.of_nat (length tuple), (λ n, n mod 2 ^ 64) <$> tuple)]
    ∧ (∀ e, (CLProgram.__call__ drv OSX self bufs global_size (Some ls) wait w).1 = Raise e →
            ∃ status, status ≠ 0 ∧ e = driver_error status).
Proof.
  intros Hbind Hq. exists (zip_with Z.mul global_size ls).
  split; [|split; [|split]].
  - apply length_zip_with.
  - intros i g l Hg Hl. rewrite lookup_zip_with, Hg, Hl. done.
  - by rewrite (call_dispatches drv OSX self bufs w w1 queue Hbind Hq).
  - intros e. rewrite (call_result drv OSX self bufs w w1 queue Hbind Hq).
    repeat case_match; simpl; intros [= <-]; eauto.
Qed.

(** [float(n)] is the conversion of the processor, to the nearest double
    with ties to even, for every [n] a 63-bit register holds. *)
Lemma float_of_int_of_uint63 (d : Z) :
  0 ≤ d < 2 ^ 63 → float_of_int d = PrimFloat.of_uint63 (Uint63.of_Z d).
Proof.
  intros H. unfold float_of_int.
  rewrite <- (SF2Prim_Prim2SF (PrimFloat.of_uint63 (Uint63.of_Z d))). f_equal.
  rewrite of_uint63_spec, Uint63.of_Z_spec.
  rewrite Z.mod_small; [reflexivity|]. exact H.
Qed.

(** C6.  In a program call whose arguments bind: with [wait] true, the
    kernel is enqueued with an event, the call waits for the event, reads
    the start and then the end timestamp, and, every driver call having
    succeeded, returns [float(end - start) * ratio * 1e-9] in binary64
    arithmetic: the ratio is [125/3] on OSX and [1.0] elsewhere, [1e-9] is
    the double [0x1.12e0be826d695p-30], and [float] of a difference from
    [0] to [2^63 - 1] is its conversion to the nearest double.  With
    [wait] false the kernel is enqueued without an event, nothing else is
    asked of the driver and the call returns [None]. *)
Theorem call_timing drv OSX self bufs global_size local_size w w1 queue :
  CLProgram.bind_args drv self (Z.of_nat (length bufs)) 0 bufs w = (Ok tt, w1) →
  dev_queue (obj w (CLProgram.device self)) = Some queue →
  let gws := CLProgram.dispatch_size global_size local_size in
  let enqueue := clEnqueueNDRangeKernel queue (CLProgram.kernel self)
                   (Z.of_nat (length gws)) (size_t_array gws)
                   (size_t_array <$> CLProgram.local_work_size local_size) in
  (let r1 := drv (trace w1) (enqueue true) in
   let c2 := clWaitForEvents (r_handle r1) in
   let r2 := drv (trace w1 ++ [enqueue true]) c2 in
   let c3 := clGetEventProfilingInfo (r_handle r1) CL_PROFILING_COMMAND_START in
   let r3 := drv (trace w1 ++ [enqueue true; c2]) c3 in
   let c4 := clGetEventProfilingInfo (r_handle r1) CL_PROFILING_COMMAND_END in
   let r4 := drv (trace w1 ++ [enqueue true; c2; c3]) c4 in
   let elapsed := r_value r4 - r_value r3 in
   r_status r1 = 0 → r_status r2 = 0 → r_status r3 = 0 → r_status r4 = 0 →
   CLProgram.__call__ drv OSX self bufs global_size local_size true w
   = (Ok (Some (float_of_int elapsed * (if OSX then 125 / 3 else 1)
                * 0x1.12e0be826d695p-30)%float),
      with_trace (trace w1 ++ [enqueue true; c2; c3; c4]) w1)
   ∧ (0 ≤ elapsed < 2 ^ 63 →
      CLProgram.__call__ drv OSX self bufs global_size local_size true w
      = (Ok (Some (PrimFloat.of_uint63 (Uint63.of_Z elapsed) * (if OSX then 125 / 3 else 1)
                   * 0x1.12e0be826d695p-30)%float),
         with_trace (trace w1 ++ [enqueue true; c2; c3; c4]) w1)))
  ∧ (r_status (drv (trace w1) (enqueue false)) = 0 →
     CLProgram.__call__ drv OSX self bufs global_size local_size false w
     = (Ok None, with_trace (trace w1 ++ [enqueue false]) w1)).
Proof.
  intros Hbind Hq gws enqueue. split.
  - intros r1 c2 r2 c3 r3 c4 r4 elapsed H1 H2 H3 H4.
    rewrite (call_result drv OSX self bufs w w1 queue Hbind Hq).
    fold gws enqueue r1 c2 r2 c3 r3 c4 r4 elapsed.
    rewrite H1, H2, H3, H4. simpl.
    assert (OSX_TIMING_RATIO OSX = (if OSX then 125 / 3 else 1)%float) as -> by reflexivity.
    assert (nano = 0x1.12e0be826d695p-30%float) as -> by reflexivity.
    split; [reflexivity|]. intros Hrange.
    by rewrite (float_of_int_of_uint63 elapsed Hrange).
  - intros H1. rewrite (call_result drv OSX self bufs w w1 queue Hbind Hq).
    fold gws enqueue. by rewrite H1.
Qed.

(** C8 does not hold of the code.  The driver answers the binding of the
    one argument with [CL_INVALID_ARG_INDEX]; the call goes on to enqueue
    the kernel and returns [None], and no exception carries the status. *)
Theorem set_kernel_arg_status_ignored :
  let p := {| CLProgram.device := 0; CLProgram.program := 1; CLProgram.kernel := 2;
              CLProgram.vars := 0 |} in
  let invoke := CLProgram.__call__ set_arg_fails false p [PyMem 9] [4] None false in
  r_status (set_arg_fails (trace one_device) (clSetKernelArg 2 0 8 (cl_mem 9))) = -49
  ∧ (invoke one_device).1 = Ok None
  ∧ calls_made invoke one_device
    = [clSetKernelArg 2 0 8 (cl_mem 9); clEnqueueNDRangeKernel 42 2 1 [4] None false].
Proof. vm_compute. by repeat split. Qed.

(** ** Allocating *)

Lemma py_index_lookup {A} (l : list A) (i : nat) a :
  l !! i = Some a → py_index l (Z.of_nat i) = Ok a.
Proof.
  intros H. pose proof (lookup_lt_Some _ _ _ H). unfold py_index.
  assert ((Z.of_nat i <? 0) = false) as E1 by lia.
  assert ((Z.of_nat (length l) <=? Z.of_nat i) = false) as E2 by lia.
  cbv zeta. rewrite !E1, E2. simpl. by rewrite Nat2Z.id, H.
Qed.

Lemma calls_made_call {A} (m : M A) w c :
  (m w).2 = with_trace (trace w ++ [c]) w → calls_made m w = [c].
Proof. intros H. unfold calls_made. rewrite H. simpl. by rewrite drop_app_length. Qed.

Lemma alloc_image drv self size itemsize shape w context channel width height :
  dev_context (obj w (CLAllocator.device self)) = Some context →
  CLAllocator.channel_type_of itemsize = Ok channel →
  shape !! 1%nat = Some width → shape !! 0%nat = Some height →
  let c := clCreateImage2D context CL_MEM_READ_WRITE (CL_RGBA channel) width height in
  CLAllocator._alloc drv self size (ImageDType itemsize shape) w
  = checked (r_handle (drv (trace w) c)) (r_status (drv (trace w) c))
      (with_trace (trace w ++ [c]) w).
Proof.
  intros Hctx Hch Hw Hh c. unfold CLAllocator._alloc.
  rewrite bind_unfold, (getattr_some _ _ _ context) by done.
  rewrite bind_unfold. unfold lift at 1. rewrite Hch.
  rewrite bind_unfold. unfold lift at 1.
  rewrite (py_index_lookup shape 1 width Hw : py_index shape 1 = _).
  rewrite bind_unfold. unfold lift at 1.
  rewrite (py_index_lookup shape 0 height Hh : py_index shape 0 = _).
  rewrite bind_unfold. reflexivity.
Qed.

Lemma checked_result {A} (a : A) status w :
  checked a status w
  = if decide (status ≠ 0) then (Raise (driver_error status), w) else (Ok a, w).
Proof. unfold checked. rewrite bind_unfold. unfold check. by case_decide. Qed.

(** C5.  For an image element type, [_alloc] asks the driver for a
    read/write 2D image of width [shape[1]] and height [shape[0]], whose
    format is four-channel half float when the element byte width is 2 and
    four-channel float when it is 4; for any other byte width it raises the
    unsupported-format error (the [KeyError] of the format table) before
    any driver call.  For any other element type it asks for a read/write
    linear buffer of [size * itemsize] bytes.  In each case the call
    returns the handle the driver gives when the status is success. *)
Theorem alloc_formats drv self size dtype w context :
  dev_context (obj w (CLAllocator.device self)) = Some context →
  let alloc := CLAllocator._alloc drv self size dtype in
  match dtype with
  | ImageDType itemsize shape =>
    (∀ width height,
       shape !! 1%nat = Some width → shape !! 0%nat = Some height →
       ∀ channel,
         (itemsize = 2 ∧ channel = CL_HALF_FLOAT) ∨ (itemsize = 4 ∧ channel = CL_FLOAT) →
         let c := clCreateImage2D context CL_MEM_READ_WRITE (CL_RGBA channel) width height in
         calls_made alloc w = [c]
         ∧ (r_status (drv (trace w) c) = 0 → (alloc w).1 = Ok (r_handle (drv (trace w) c))))
    ∧ (itemsize ≠ 2 → itemsize ≠ 4 → alloc w = (Raise (KeyError itemsize), w))
  | PlainDType itemsize =>
    let c := clCreateBuffer context CL_MEM_READ_WRITE (size * itemsize) in
    calls_made alloc w = [c]
    ∧ (r_status (drv (trace w) c) = 0 → (alloc w).1 = Ok (r_handle (drv (trace w) c)))
  end.
Proof.
  intros Hctx alloc. destruct dtype as [itemsize|itemsize shape]; subst alloc.
  - intros c.
    assert (CLAllocator._alloc drv self size (PlainDType itemsize) w
            = checked (r_handle (drv (trace w) c)) (r_status (drv (trace w) c))
                (with_trace (trace w ++ [c]) w)) as Heq.
    { unfold CLAllocator._alloc.
      by rewrite bind_unfold, (getattr_some _ _ _ context) by done. }
    split.
    + apply calls_made_call. rewrite Heq, checked_result. by case_decide.
    + intros Hs. by rewrite Heq, checked_result, Hs.
  - split.
    + intros width height Hw Hh channel Hch c.
      assert (CLAllocator.channel_type_of itemsize = Ok channel) as Hc.
      { by destruct Hch as [[-> ->]|[-> ->]]. }
      pose proof (alloc_image drv self size itemsize shape w context channel width height
                    Hctx Hc Hw Hh) as Heq.
      cbv zeta in Heq. fold c in Heq. split.
      * apply calls_made_call. rewrite Heq, checked_result. by case_decide.
      * intros Hs. by rewrite Heq, checked_result, Hs.
    + intros H2 H4. unfold CLAllocator._alloc.
      rewrite bind_unfold, (getattr_some _ _ _ context) by done.
      rewrite bind_unfold. unfold lift, CLAllocator.channel_type_of.
      by rewrite !decide_False by done.
Qed.

(** ** The properties at the fake drivers *)

(** C1 at one constructed device: a [copyin] appends its source. *)
Lemma pending_copyin_discipline_witness :
  pending_copyin one_device 0 = Some []
  ∧ pending_copyin (CLAllocator.copyin ok_driver allocator0 5 host_span one_device).2 0
    = Some [host_span].
Proof.
  split; [reflexivity|].
  destruct (pending_copyin_discipline ok_driver false one_device 0 [] eq_refl)
    as (_ & Hcopyin & _).
  exact (proj2 (Hcopyin allocator0 5 host_span 42 eq_refl eq_refl eq_refl)).
Defined.

(** C10 with one copy-in pending and a drain that fails. *)
Lemma synchronize_failure_keeps_pending_witness :
  dev_queue (obj one_pending 0) = Some 42
  ∧ r_status (queue_ops_fail (trace one_pending) (clFinish 42)) ≠ 0
  ∧ (CLDevice.synchronize queue_ops_fail 0 one_pending).1
    = Raise (RuntimeError "OpenCL Error -5")
  ∧ pending_copyin (CLDevice.synchronize queue_ops_fail 0 one_pending).2 0
    = Some [host_span].
Proof.
  assert (r_status (queue_ops_fail (trace one_pending) (clFinish 42)) ≠ 0) as Hs
    by (vm_compute; discriminate).
  split; [reflexivity|split; [exact Hs|]].
  destruct (synchronize_failure_keeps_pending queue_ops_fail one_pending 0 42 eq_refl Hs)
    as (Hr & _ & Hp).
  split; [exact Hr|]. rewrite Hp. reflexivity.
Defined.

(** C2 in a process that has constructed no device and has an empty cache. *)
Lemma compile_without_context_witness :
  compiler_context (fresh ∅) = None
  ∧ compile_cl ok_driver "kernel" (fresh ∅)
    = (Raise (AssertionError compiler_context_required), fresh ∅).
Proof.
  split; [reflexivity|].
  destruct (compile_without_context ok_driver "kernel" (fresh ∅) eq_refl)
    as (_ & Hmiss & _).
  exact (Hmiss eq_refl).
Defined.

(** C3 at the driver whose build log is [ERR123]. *)
Lemma build_failure_raises_compile_error_witness :
  r_status (build_fails (trace one_device ++ [clCreateProgramWithSource 42 (encode "kernel") 6])
              (clBuildProgram 42 7)) ≠ 0
  ∧ ∃ msg,
      (compile_cl build_fails "kernel" one_device).1 = Raise (RuntimeError msg)
      ∧ contains msg "ERR123".
Proof.
  assert (r_status (build_fails
                      (trace one_device ++ [clCreateProgramWithSource 42 (encode "kernel") 6])
                      (clBuildProgram 42 7)) ≠ 0) as Hs by (vm_compute; discriminate).
  split; [exact Hs|].
  destruct (build_failure_raises_compile_error build_fails "kernel" one_device 0 42 7
              eq_refl eq_refl eq_refl eq_refl Hs)
    as (e & _ & Hr & Hvalid & _).
  destruct (Hvalid eq_refl) as (log & msg & Hlog & _ & -> & _ & Hc).
  assert (log = "ERR123") as Hname.
  { apply (f_equal (λ r, match r with Ok l => l | Raise _ => log end)) in Hlog.
    symmetry. exact Hlog. }
  rewrite Hname in Hc.
  exists msg. split; [|exact Hc]. by rewrite (Hr eq_refl).
Defined.

(** C4 at global size [(2, 3)] and local size [(4, 5)]. *)
Lemma dispatch_size_is_product_witness :
  ∃ gws,
    dispatches (calls_made
                  (CLProgram.__call__ ok_driver false program0 args0 [2; 3] (Some [4; 5]) false)
                  one_device)
    = [(2, gws)]
    ∧ gws !! 0%nat = Some 8 ∧ gws !! 1%nat = Some 15.
Proof.
  destruct (dispatch_size_is_product ok_driver false program0 args0 [2; 3] (Some [4; 5]) false
              one_device (CLProgram.bind_args ok_driver program0 2 0 args0 one_device).2 42
              eq_refl eq_refl eq_refl)
    as (gws & Hd & _ & _ & Hprod).
  exists gws. split; [exact Hd|].
  split; [exact (Hprod 0%nat 2 4 eq_refl eq_refl ltac:(lia))
         |exact (Hprod 1%nat 3 5 eq_refl eq_refl ltac:(lia))].
Defined.

(** C9 at global size [(2, 3)] and local size [(4, 5, 6)]. *)
Lemma rank_mismatch_truncates_witness :
  ∃ tuple,
    length tuple = 2%nat
    ∧ tuple !! 0%nat = Some 8 ∧ tuple !! 1%nat = Some 15
    ∧ dispatches (calls_made
                    (CLProgram.__call__ ok_driver false program0 args0 [2; 3] (Some [4; 5; 6])
                       false) one_device)
      = [(Z.of_nat (length tuple), (λ n, n mod 2 ^ 64) <$> tuple)].
Proof.
  destruct (rank_mismatch_truncates ok_driver false program0 args0 [2; 3] [4; 5; 6] false
              one_device (CLProgram.bind_args ok_driver program0 2 0 args0 one_device).2 42
              eq_refl eq_refl)
    as (tuple & Hlen & Hprod & Hd & _).
  exists tuple. split; [exact Hlen|].
  split; [exact (Hprod 0%nat 2 4 eq_refl eq_refl)|].
  split; [exact (Hprod 1%nat 3 5 eq_refl eq_refl)|exact Hd].
Defined.

(** C6 at the driver that reports the timestamps 1000 and 4000: three
    microseconds, the double [0x1.92a737110e454p-19], and on OSX the double
    [0x1.0624dd2f1a9fcp-13]. *)
Lemma call_timing_witness :
  (CLProgram.__call__ ok_driver false program0 args0 [2; 3] (Some [4; 5]) true one_device).1
  = Ok (Some 0x1.92a737110e454p-19%float)
  ∧ (CLProgram.__call__ ok_driver true program0 args0 [2; 3] (Some [4; 5]) true one_device).1
    = Ok (Some 0x1.0624dd2f1a9fcp-13%float)
  ∧ (CLProgram.__call__ ok_driver false program0 args0 [2; 3] (Some [4; 5]) false one_device).1
    = Ok None.
Proof.
  destruct (call_timing ok_driver false program0 args0 [2; 3] (Some [4; 5])
              one_device (CLProgram.bind_args ok_driver program0 2 0 args0 one_device).2 42
              eq_refl eq_refl)
    as (Hwait & Hnowait).
  destruct (call_timing ok_driver true program0 args0 [2; 3] (Some [4; 5])
              one_device (CLProgram.bind_args ok_driver program0 2 0 args0 one_device).2 42
              eq_refl eq_refl)
    as (Hosx & _).
  destruct (Hwait eq_refl eq_refl eq_refl eq_refl) as [_ Hvalue].
  destruct (Hosx eq_refl eq_refl eq_refl eq_refl) as [_ Hvalue_osx].
  split; [|split].
  - rewrite (Hvalue ltac:(vm_compute; split; [discriminate|reflexivity])). reflexivity.
  - rewrite (Hvalue_osx ltac:(vm_compute; split; [discriminate|reflexivity])). reflexivity.
  - by rewrite (Hnowait eq_refl).
Defined.

(** C5 at a half-precision image type of shape [(8, 4, 4)]. *)
Lemma alloc_formats_witness :
  dev_context (obj one_device 0) = Some 42
  ∧ calls_made (CLAllocator._alloc ok_driver allocator0 16 (ImageDType 2 [8; 4; 4])) one_device
    = [clCreateImage2D 42 CL_MEM_READ_WRITE (CL_RGBA CL_HALF_FLOAT) 4 8]
  ∧ CLAllocator._alloc ok_driver allocator0 16 (ImageDType 3 [8; 4; 4]) one_device
    = (Raise (KeyError 3), one_device)
  ∧ calls_made (CLAllocator._alloc ok_driver allocator0 16 (PlainDType 4)) one_device
    = [clCreateBuffer 42 CL_MEM_READ_WRITE 64].
Proof.
  split; [reflexivity|]. split; [|split].
  - destruct (alloc_formats ok_driver allocator0 16 (ImageDType 2 [8; 4; 4]) one_device 42
                eq_refl) as [Himage _].
    exact (proj1 (Himage 4 8 eq_refl eq_refl CL_HALF_FLOAT
                    (or_introl (conj eq_refl eq_refl)))).
  - destruct (alloc_formats ok_driver allocator0 16 (ImageDType 3 [8; 4; 4]) one_device 42
                eq_refl) as [_ Hother].
    apply Hother; discriminate.
  - exact (proj1 (alloc_formats ok_driver allocator0 16 (PlainDType 4) one_device 42 eq_refl)).
Defined.

(** ** The model on small inputs *)

Example str_of_int_negative : str_of_int (-35) = "-35".
Proof. reflexivity. Qed.

Example decode_ascii : decode (encode "ERR123") = Ok "ERR123".
Proof. reflexivity. Qed.

Example decode_two_bytes :
  decode [Byte.xc3; Byte.xa9] = Ok (string_of_list_byte [Byte.xc3; Byte.xa9]).
Proof. reflexivity. Qed.

Example decode_rejects_stray_byte : decode [Byte.xff] = Raise UnicodeDecodeError.
Proof. reflexivity. Qed.

Example decode_rejects_overlong : decode [Byte.xc0; Byte.x80] = Raise UnicodeDecodeError.
Proof. reflexivity. Qed.

Example decode_rejects_surrogate :
  decode [Byte.xed; Byte.xa0; Byte.x80] = Raise UnicodeDecodeError.
Proof. reflexivity. Qed.

Example py_index_last : py_index [7; 8] (-1) = Ok 8.
Proof. reflexivity. Qed.

Example py_index_out_of_range : py_index [7; 8] 2 = Raise IndexError.
Proof. reflexivity. Qed.

Example float_of_int_small : float_of_int 3000 = 3000%float.
Proof. reflexivity. Qed.

(** [nano] is the double nearest to [10^-9]: it is [m * 2^-82], and
    [|m * 2^-82 - 10^-9|] is at most half of [2^-82]. *)
Example nano_nearest :
  ∃ m, Prim2SF nano = S754_finite false m (-82)
       ∧ 2 * Z.abs (Z.pos m * 10 ^ 9 - 2 ^ 82) ≤ 10 ^ 9.
Proof. eexists. split; [vm_compute; reflexivity|]. vm_compute. discriminate. Qed.

(** Two devices of a two-device driver: distinct device identifiers, and
    the first constructed is the compiler context. *)
Example two_devices :
  let w := run_ops ok_driver false [NewDevice (Suffix 0); NewDevice (Suffix 1)] (fresh ∅) in
  dev_device_id (obj w 0) = Some 7 ∧ dev_device_id (obj w 1) = Some 8
  ∧ compiler_context w = Some 0%nat.
Proof. vm_compute. by repeat split. Qed.

(** A [copyin] that the driver refuses raises and appends nothing. *)
Example copyin_refused :
  (CLAllocator.copyin queue_ops_fail allocator0 5 host_span one_device).1
  = Raise (RuntimeError "OpenCL Error -5")
  ∧ pending_copyin (CLAllocator.copyin queue_ops_fail allocator0 5 host_span one_device).2 0
    = Some [].
Proof. vm_compute. by repeat split. Qed.

(** [copyout] empties the pending list through [synchronize]. *)
Example copyout_synchronizes :
  pending_copyin one_pending 0 = Some [host_span]
  ∧ pending_copyin (CLAllocator.copyout ok_driver allocator0 host_span 5 one_pending).2 0
    = Some [].
Proof. vm_compute. by repeat split. Qed.

(** A compile that succeeds stores its bytes, and the next call for the
    same source asks nothing of the driver. *)
Example compile_twice :
  let first := compile_cl ok_driver "kernel" one_device in
  let second := compile_cl ok_driver "kernel" first.2 in
  first.1 = second.1 ∧ calls_made (compile_cl ok_driver "kernel") first.2 = [].
Proof. vm_compute. by repeat split. Qed.

(** * Further properties of the module *)

(** ** Status translation *)

Lemma int_of_str_of_int (z : Z) : int_of_str (str_of_int z) = Some z.
Proof.
  unfold int_of_str, str_of_int. rewrite NilZero.isi.
  - simpl. by rewrite DecimalZ.of_to.
  - destruct z as [|p|p]; simpl; [done| |done].
    intros [= H]. by apply DecimalPos.Unsigned.to_uint_nonnil in H.
  - destruct z as [|p|p]; simpl; [done|done|].
    intros [= H]. by apply DecimalPos.Unsigned.to_uint_nonnil in H.
Qed.

Lemma status_of_driver_error (status : Z) : status_of (driver_error status) = Some status.
Proof.
  unfold status_of, driver_error.
  change (strip_prefix "OpenCL Error " ("OpenCL Error " +:+ str_of_int status))
    with (Some (str_of_int status)).
  simpl. apply int_of_str_of_int.
Qed.

(** X1.  [checked] hands its first argument through, with the state
    untouched, when the status is zero; for any other status it raises an
    error from whose message the status can be read back, so two different
    statuses never raise the same error. *)
Theorem checked_carries_status {A} (ret : A) (status : Z) (w : world) :
  (status = 0 → checked ret status w = (Ok ret, w))
  ∧ (status ≠ 0 →
     ∃ e, checked ret status w = (Raise e, w) ∧ status_of e = Some status)
  ∧ (∀ status' e, status ≠ 0 →
       checked ret status w = (Raise e, w) → checked ret status' w = (Raise e, w) →
       status' = status).
Proof.
  split; [|split].
  - intros ->. reflexivity.
  - intros Hs. exists (driver_error status). split; [|apply status_of_driver_error].
    rewrite checked_result. by rewrite decide_True.
  - intros status' e Hs. rewrite !checked_result. rewrite decide_True by done.
    intros [= <-]. case_decide; [|done]. intros [= Heq].
    change (str_of_int status' = str_of_int status) in Heq.
    apply (f_equal int_of_str) in Heq. rewrite !int_of_str_of_int in Heq. congruence.
Qed.

(** ** Building and releasing a program object *)

(** Every way the construction of a program object can end. *)
Lemma program_init_result drv device name prg bufs vars w context device_id :
  dev_context (obj w device) = Some context →
  dev_device_id (obj w device) = Some device_id →
  let c1 := clCreateProgramWithBinary context device_id prg (Z.of_nat (length prg)) in
  let r1 := drv (trace w) c1 in
  let c2 := clBuildProgram (r_handle r1) device_id in
  let r2 := drv (trace w ++ [c1]) c2 in
  let c3 := clCreateKernel (r_handle r1) (encode name) in
  let r3 := drv (trace w ++ [c1; c2]) c3 in
  CLProgram.__init__ drv device name prg bufs vars w
  = if decide (r_status r1 ≠ 0)
    then (Raise (driver_error (r_status r1)), with_trace (trace w ++ [c1]) w)
    else if decide (r_value r1 ≠ 0)
    then (Raise (driver_error (r_value r1)), with_trace (trace w ++ [c1]) w)
    else if decide (r_status r2 ≠ 0)
    then (Raise (driver_error (r_status r2)), with_trace (trace w ++ [c1; c2]) w)
    else if decide (r_status r3 ≠ 0)
    then (Raise (driver_error (r_status r3)), with_trace (trace w ++ [c1; c2; c3]) w)
    else (Ok {| CLProgram.device := device; CLProgram.program := r_handle r1;
                CLProgram.kernel := r_handle r3; CLProgram.vars := vars |},
          with_trace (trace w ++ [c1; c2; c3]) w).
Proof.
  intros Hctx Hdev c1 r1 c2 r2 c3 r3. unfold CLProgram.__init__.
  rewrite bind_unfold, (getattr_some _ _ _ context) by done.
  rewrite bind_unfold, (getattr_some _ _ _ device_id) by done.
  rewrite bind_unfold. unfold driver_call at 1. cbv beta iota zeta. fold c1 r1.
  rewrite bind_unfold, checked_result.
  destruct (decide (r_status r1 ≠ 0)) as [|_]; [reflexivity|].
  rewrite bind_unfold. unfold check at 1.
  destruct (decide (r_value r1 ≠ 0)) as [|_]; [reflexivity|].
  unfold mret at 1, M_ret at 1. cbv beta iota.
  rewrite bind_unfold, (getattr_some _ _ _ device_id) by done.
  rewrite bind_unfold. unfold driver_call at 1. cbv beta iota. simpl trace.
  fold c2 r2. rewrite bind_unfold. unfold check at 1.
  destruct (decide (r_status r2 ≠ 0)) as [|_].
  { simpl. by rewrite <- (assoc_L (++)). }
  unfold mret at 1, M_ret at 1. cbv beta iota.
  rewrite bind_unfold. unfold driver_call at 1. cbv beta iota. simpl trace.
  rewrite <- !(assoc_L (++)). simpl app. fold c3 r3.
  rewrite bind_unfold, checked_result.
  destruct (decide (r_status r3 ≠ 0)) as [|_]; reflexivity.
Qed.

(** X2.  A program object is built only when the driver reports success
    four times: in the error code of the load, in the binary status of the
    load, in the build, and in the lookup of the kernel.  Its program
    handle is the one the load returned and its kernel handle the one the
    lookup returned.  A binary status other than zero raises the driver
    error for that status after the load, and nothing is built. *)
Theorem program_init_needs_both_statuses drv device name prg bufs vars w context device_id :
  dev_context (obj w device) = Some context →
  dev_device_id (obj w device) = Some device_id →
  let c1 := clCreateProgramWithBinary context device_id prg (Z.of_nat (length prg)) in
  let r1 := drv (trace w) c1 in
  let r2 := drv (trace w ++ [c1]) (clBuildProgram (r_handle r1) device_id) in
  let r3 := drv (trace w ++ [c1; clBuildProgram (r_handle r1) device_id])
              (clCreateKernel (r_handle r1) (encode name)) in
  (∀ p, (CLProgram.__init__ drv device name prg bufs vars w).1 = Ok p
        ↔ (r_status r1 = 0 ∧ r_value r1 = 0 ∧ r_status r2 = 0 ∧ r_status r3 = 0)
          ∧ p = {| CLProgram.device := device; CLProgram.program := r_handle r1;
                   CLProgram.kernel := r_handle r3; CLProgram.vars := vars |})
  ∧ (r_status r1 = 0 → r_value r1 ≠ 0 →
     CLProgram.__init__ drv device name prg bufs vars w
     = (Raise (driver_error (r_value r1)), with_trace (trace w ++ [c1]) w)).
Proof.
  intros Hctx Hdev c1 r1 r2 r3.
  pose proof (program_init_result drv device name prg bufs vars w context device_id
                Hctx Hdev) as H.
  cbv zeta in H. fold c1 r1 r2 r3 in H. rewrite H. clear H. split.
  - intros p. repeat case_decide; simpl; split; try done.
    + intros (?&_). tauto.
    + intros (?&_). tauto.
    + intros (?&_). tauto.
    + intros (?&_). tauto.
    + intros [= <-]. split; [|done]. repeat split; lia.
    + intros (_&->). done.
  - intros H1 Hb. rewrite decide_False by lia. by rewrite decide_True.
Qed.

(** Every way the release of a program object can end. *)
Lemma program_del_result drv self w :
  let c1 := clReleaseKernel (CLProgram.kernel self) in
  let c2 := clReleaseProgram (CLProgram.program self) in
  let r1 := drv (trace w) c1 in
  let r2 := drv (trace w ++ [c1]) c2 in
  CLProgram.__del__ drv self w
  = if decide (r_status r1 ≠ 0)
    then (Raise (driver_error (r_status r1)), with_trace (trace w ++ [c1]) w)
    else if decide (r_status r2 ≠ 0)
    then (Raise (driver_error (r_status r2)), with_trace (trace w ++ [c1; c2]) w)
    else (Ok tt, with_trace (trace w ++ [c1; c2]) w).
Proof.
  intros c1 c2 r1 r2. unfold CLProgram.__del__.
  rewrite bind_unfold. unfold driver_call at 1. cbv beta iota. fold c1 r1.
  rewrite bind_unfold. unfold check at 1.
  destruct (decide (r_status r1 ≠ 0)) as [|_]; [reflexivity|].
  unfold mret at 1, M_ret at 1. cbv beta iota.
  rewrite bind_unfold. unfold driver_call at 1. cbv beta iota. simpl trace.
  fold c2 r2. unfold check.
  destruct (decide (r_status r2 ≠ 0)) as [|_]; simpl; by rewrite <- (assoc_L (++)).
Qed.

(** X3.  Releasing a program object releases the kernel first and the
    program second.  When the release of the kernel fails, the driver
    error is raised and the program is never released; otherwise both
    calls are made and the release returns exactly when the second one
    succeeds too. *)
Theorem program_del_order drv self w :
  let c1 := clReleaseKernel (CLProgram.kernel self) in
  let c2 := clReleaseProgram (CLProgram.program self) in
  let r1 := drv (trace w) c1 in
  let r2 := drv (trace w ++ [c1]) c2 in
  (r_status r1 ≠ 0 →
   CLProgram.__del__ drv self w
   = (Raise (driver_error (r_status r1)), with_trace (trace w ++ [c1]) w)
   ∧ calls_made (CLProgram.__del__ drv self) w = [c1])
  ∧ (r_status r1 = 0 →
     calls_made (CLProgram.__del__ drv self) w = [c1; c2]
     ∧ ((CLProgram.__del__ drv self w).1 = Ok tt ↔ r_status r2 = 0)).
Proof.
  intros c1 c2 r1 r2. unfold calls_made.
  pose proof (program_del_result drv self w) as H.
  cbv zeta in H. fold c1 c2 r1 r2 in H. rewrite H. clear H. split.
  - intros H1. rewrite decide_True by done. simpl. by rewrite drop_app_length.
  - intros H1. rewrite decide_False by lia. split.
    + case_decide; simpl; by rewrite drop_app_length.
    + case_decide; simpl; split; (done || lia).
Qed.

(** ** Binding the arguments of a call *)

(** Which arguments fit which positions. *)
Lemma fits_spec self nbufs j b :
  fits self nbufs j b
  ↔ (j >= nbufs - CLProgram.vars self ∧ ∃ v, b = PyInt v)
    ∨ (j < nbufs - CLProgram.vars self ∧ ∃ h, b = PyMem h).
Proof.
  unfold fits, CLProgram.bound_value. case_decide; destruct b as [h|v]; split.
  - intros [bc Hbc]. discriminate.
  - intros [[_ [v Hv]]|[Hlt _]]; [discriminate|lia].
  - intros _. left. eauto.
  - intros _. eauto.
  - intros _. right. split; [lia|eauto].
  - intros _. eauto.
  - intros [bc Hbc]. discriminate.
  - intros [[Hge _]|[_ [h Hh]]]; [lia|discriminate].
Qed.

(** When every argument fits its position, the loop makes one call per
    argument, in order, and returns. *)
Lemma bind_args_ok drv self nbufs bufs :
  ∀ i w,
    (∀ j b, bufs !! j = Some b → fits self nbufs (i + Z.of_nat j) b) →
    ∃ calls,
      CLProgram.bind_args drv self nbufs i bufs w
      = (Ok tt, with_trace (trace w ++ calls) w)
      ∧ length calls = length bufs
      ∧ ∀ j b, bufs !! j = Some b →
          ∃ bc, CLProgram.bound_value self nbufs (i + Z.of_nat j) b = Ok bc
                ∧ calls !! j = Some (clSetKernelArg (CLProgram.kernel self)
                                       (i + Z.of_nat j) (sizeof bc) bc).
Proof.
  induction bufs as [|b bufs IH]; intros i w Hfit.
  - exists []. split; [|done]. simpl. destruct w. unfold with_trace. simpl.
    by rewrite app_nil_r.
  - destruct (Hfit 0%nat b eq_refl) as [bc Hbc]. rewrite Z.add_0_r in Hbc.
    set (c := clSetKernelArg (CLProgram.kernel self) i (sizeof bc) bc).
    destruct (IH (i + 1) (with_trace (trace w ++ [c]) w)) as (calls & Hrun & Hlen & Hcalls).
    { intros j b' Hj. replace (i + 1 + Z.of_nat j) with (i + Z.of_nat (S j)) by lia.
      by apply Hfit. }
    exists (c :: calls). split; [|split].
    + simpl. rewrite bind_unfold. unfold lift at 1. rewrite Hbc.
      rewrite bind_unfold. unfold driver_call at 1. cbv beta iota. fold c.
      rewrite Hrun. unfold with_trace. simpl. by rewrite <- (assoc_L (++)).
    + simpl. by rewrite Hlen.
    + intros [|j] b' Hj; simpl in Hj.
      * injection Hj as <-. exists bc. by rewrite Z.add_0_r.
      * destruct (Hcalls j b' Hj) as (bc' & Hb' & Hc').
        exists bc'. replace (i + Z.of_nat (S j)) with (i + 1 + Z.of_nat j) by lia.
        done.
Qed.

(** When the loop returns, every argument fitted its position. *)
Lemma bind_args_ok_inv drv self nbufs bufs :
  ∀ i w w1,
    CLProgram.bind_args drv self nbufs i bufs w = (Ok tt, w1) →
    ∀ j b, bufs !! j = Some b → fits self nbufs (i + Z.of_nat j) b.
Proof.
  induction bufs as [|b bufs IH]; intros i w w1 Hrun j b' Hj; [done|].
  simpl in Hrun. rewrite bind_unfold in Hrun. unfold lift at 1 in Hrun.
  destruct (CLProgram.bound_value self nbufs i b) as [bc|e] eqn:Hbc; [|done].
  rewrite bind_unfold in Hrun. unfold driver_call at 1 in Hrun. cbv beta iota in Hrun.
  destruct j as [|j]; simpl in Hj.
  - injection Hj as <-. exists bc. by rewrite Z.add_0_r.
  - replace (i + Z.of_nat (S j)) with (i + 1 + Z.of_nat j) by lia.
    by eapply IH.
Qed.

(** X4.  When every argument fits its position (a buffer handle before
    the trailing [vars] positions, an integer in them), the call binds
    each argument by its index, in order, one driver call each: a buffer
    handle as a pointer of eight bytes, an integer as a [c_int32] of four
    bytes, which holds the integer modulo [2^32] read as signed, so the
    integer itself when it is at least [-2^31] and less than [2^31]; no
    argument is skipped and none is bound twice. *)
Theorem bind_args_by_position drv self bufs w :
  (∀ j b, bufs !! j = Some b → fits self (Z.of_nat (length bufs)) (Z.of_nat j) b) →
  let bind := CLProgram.bind_args drv self (Z.of_nat (length bufs)) 0 bufs in
  (bind w).1 = Ok tt
  ∧ length (calls_made bind w) = length bufs
  ∧ ∀ j : nat,
      (∀ h, bufs !! j = Some (PyMem h) →
            calls_made bind w !! j
            = Some (clSetKernelArg (CLProgram.kernel self) (Z.of_nat j) 8 (cl_mem h)))
      ∧ (∀ v, bufs !! j = Some (PyInt v) →
              calls_made bind w !! j
              = Some (clSetKernelArg (CLProgram.kernel self) (Z.of_nat j) 4
                        (c_int32 ((v + 2 ^ 31) mod 2 ^ 32 - 2 ^ 31))))
      ∧ (∀ v, bufs !! j = Some (PyInt v) → - 2 ^ 31 ≤ v < 2 ^ 31 →
              calls_made bind w !! j
              = Some (clSetKernelArg (CLProgram.kernel self) (Z.of_nat j) 4 (c_int32 v))).
Proof.
  intros Hfit bind.
  destruct (bind_args_ok drv self (Z.of_nat (length bufs)) bufs 0 w) as (calls & Hrun & Hlen & Hc).
  { intros j b Hj. rewrite Z.add_0_l. by apply Hfit. }
  subst bind. unfold calls_made. rewrite Hrun. simpl. rewrite drop_app_length.
  split; [done|split; [done|]].
  assert (∀ (j : nat) v, bufs !! j = Some (PyInt v) →
            calls !! j = Some (clSetKernelArg (CLProgram.kernel self) (Z.of_nat j) 4
                                 (c_int32 ((v + 2 ^ 31) mod 2 ^ 32 - 2 ^ 31)))) as Hint.
  { intros j v Hj. destruct (Hc j _ Hj) as (bc & Hb & ->). rewrite Z.add_0_l in *.
    unfold CLProgram.bound_value in Hb. case_decide; by simplify_eq. }
  intros j. split; [|split].
  - intros h Hj. destruct (Hc j _ Hj) as (bc & Hb & ->). rewrite Z.add_0_l in *.
    unfold CLProgram.bound_value in Hb. case_decide; by simplify_eq.
  - apply Hint.
  - intros v Hj Hrange. rewrite (Hint j v Hj). do 3 f_equal.
    rewrite Z.mod_small by lia. lia.
Qed.

(** X5.  An argument that does not fit its position (an integer where a
    buffer is expected, or a buffer among the trailing [vars] scalars)
    makes the call raise [TypeError]: no kernel is enqueued, and nothing
    but the trace of the driver changes. *)
Theorem call_type_error drv OSX self bufs global_size local_size wait w j b :
  bufs !! j = Some b →
  ¬ fits self (Z.of_nat (length bufs)) (Z.of_nat j) b →
  let invoke := CLProgram.__call__ drv OSX self bufs global_size local_size wait in
  (invoke w).1 = Raise TypeError
  ∧ dispatches (calls_made invoke w) = []
  ∧ only_trace w (invoke w).2.
Proof.
  intros Hj Hfit invoke. subst invoke. unfold calls_made, CLProgram.__call__.
  rewrite bind_unfold.
  pose proof (bind_args_no_dispatch drv self (Z.of_nat (length bufs)) 0 bufs w) as Hnd.
  pose proof (bind_args_raises drv self (Z.of_nat (length bufs)) 0 bufs w) as Hr.
  destruct (CLProgram.bind_args drv self (Z.of_nat (length bufs)) 0 bufs w)
    as [[[]|e] w1] eqn:Hrun.
  - destruct Hfit.
    pose proof (bind_args_ok_inv drv self _ bufs 0 w w1 Hrun j b Hj) as H.
    by rewrite Z.add_0_l in H.
  - simpl in *. rewrite (Hr e eq_refl). destruct Hnd as (t & -> & Ht).
    simpl. rewrite drop_app_length. split; [done|split; [done|]]. by exists t.
Qed.

(** ** Edge cases of a call *)

(** X6.  An empty [local_size] tuple counts as given on line 55 and as
    absent on line 57: whatever [global_size] is, and whether the call
    waits or not, the kernel is enqueued with zero dimensions, an empty
    global size and no local size, right after the arguments are bound,
    and that is the one dispatch of the call.  A call that does not wait
    ends there. *)
Theorem empty_local_size drv OSX self bufs global_size wait w w1 queue :
  CLProgram.bind_args drv self (Z.of_nat (length bufs)) 0 bufs w = (Ok tt, w1) →
  dev_queue (obj w (CLProgram.device self)) = Some queue →
  let c := clEnqueueNDRangeKernel queue (CLProgram.kernel self) 0 [] None in
  let invoke := CLProgram.__call__ drv OSX self bufs global_size (Some []) in
  (∃ rest, trace (invoke wait w).2 = trace w1 ++ c wait :: rest ∧ dispatches rest = [])
  ∧ dispatches (calls_made (invoke wait) w) = [(0, [])]
  ∧ invoke false w
    = if decide (r_status (drv (trace w1) (c false)) ≠ 0)
      then (Raise (driver_error (r_status (drv (trace w1) (c false)))),
            with_trace (trace w1 ++ [c false]) w1)
      else (Ok None, with_trace (trace w1 ++ [c false]) w1).
Proof.
  intros Hbind Hq c invoke. subst invoke.
  assert (CLProgram.dispatch_size global_size (Some []) = []) as Hgws.
  { unfold CLProgram.dispatch_size. by rewrite zip_with_nil_r. }
  split; [|split].
  - rewrite (call_result drv OSX self bufs w w1 queue Hbind Hq).
    rewrite Hgws. simpl. fold (c wait).
    repeat case_match; simpl; eexists; (split; [reflexivity|reflexivity]).
  - rewrite (call_dispatches drv OSX self bufs w w1 queue Hbind Hq).
    by rewrite Hgws.
  - rewrite (call_result drv OSX self bufs w w1 queue Hbind Hq).
    by rewrite Hgws.
Qed.

(** X7.  With [wait] true, a failure stops the call where it happens: if
    waiting for the event fails, no timestamp is asked for; if reading the
    start timestamp fails, the end timestamp is never read.  Each time the
    driver error of the failing status is raised. *)
Theorem wait_failure_stops drv OSX self bufs global_size local_size w w1 queue :
  CLProgram.bind_args drv self (Z.of_nat (length bufs)) 0 bufs w = (Ok tt, w1) →
  dev_queue (obj w (CLProgram.device self)) = Some queue →
  let gws := CLProgram.dispatch_size global_size local_size in
  let c1 := clEnqueueNDRangeKernel queue (CLProgram.kernel self) (Z.of_nat (length gws))
              (size_t_array gws) (size_t_array <$> CLProgram.local_work_size local_size)
              true in
  let r1 := drv (trace w1) c1 in
  let c2 := clWaitForEvents (r_handle r1) in
  let r2 := drv (trace w1 ++ [c1]) c2 in
  let c3 := clGetEventProfilingInfo (r_handle r1) CL_PROFILING_COMMAND_START in
  let r3 := drv (trace w1 ++ [c1; c2]) c3 in
  r_status r1 = 0 →
  (r_status r2 ≠ 0 →
   CLProgram.__call__ drv OSX self bufs global_size local_size true w
   = (Raise (driver_error (r_status r2)), with_trace (trace w1 ++ [c1; c2]) w1))
  ∧ (r_status r2 = 0 → r_status r3 ≠ 0 →
     CLProgram.__call__ drv OSX self bufs global_size local_size true w
     = (Raise (driver_error (r_status r3)), with_trace (trace w1 ++ [c1; c2; c3]) w1)).
Proof.
  intros Hbind Hq gws c1 r1 c2 r2 c3 r3 H1.
  rewrite (call_result drv OSX self bufs w w1 queue Hbind Hq).
  fold gws c1 r1 c2 r2 c3 r3. rewrite decide_False by lia. split.
  - intros H2. by rewrite decide_True.
  - intros H2 H3. rewrite decide_False by lia. by rewrite decide_True.
Qed.

(** ** Edge cases of allocation *)

Lemma py_index_short {A} (l : list A) (i : nat) :
  (length l ≤ i)%nat → py_index l (Z.of_nat i) = Raise IndexError.
Proof.
  intros H. unfold py_index.
  assert ((Z.of_nat i <? 0) = false) as E1 by lia.
  assert ((Z.of_nat (length l) <=? Z.of_nat i) = true) as E2 by lia.
  cbv zeta. by rewrite !E1, E2.
Qed.

(** X8.  For an image type whose declared shape has fewer than two
    entries, [_alloc] raises before any driver call: the [KeyError] of the
    format table when the byte width is neither 2 nor 4, for the table is
    read first, and [IndexError] otherwise. *)
Theorem alloc_image_short_shape drv self size itemsize shape w context :
  dev_context (obj w (CLAllocator.device self)) = Some context →
  (length shape < 2)%nat →
  CLAllocator._alloc drv self size (ImageDType itemsize shape) w
  = (Raise (if decide (itemsize = 2 ∨ itemsize = 4) then IndexError else KeyError itemsize),
     w).
Proof.
  intros Hctx Hlen. unfold CLAllocator._alloc.
  rewrite bind_unfold, (getattr_some _ _ _ context) by done.
  rewrite bind_unfold. unfold lift at 1, CLAllocator.channel_type_of.
  destruct (decide (itemsize = 2)) as [->|H2].
  { rewrite bind_unfold. unfold lift at 1.
    by rewrite (py_index_short shape 1 ltac:(lia) : py_index shape 1 = _). }
  destruct (decide (itemsize = 4)) as [->|H4].
  { rewrite bind_unfold. unfold lift at 1.
    by rewrite (py_index_short shape 1 ltac:(lia) : py_index shape 1 = _). }
  rewrite decide_False by tauto. reflexivity.
Qed.

(** ** Copying out *)

(** Every way [copyout] can end. *)
Lemma copyout_result drv a dest src w queue l :
  dev_queue (obj w (CLAllocator.device a)) = Some queue →
  dev_pending_copyin (obj w (CLAllocator.device a)) = Some l →
  let c1 := clEnqueueReadBuffer queue src false (mv_len dest * mv_itemsize dest) dest in
  let r1 := drv (trace w) c1 in
  let c2 := clFinish queue in
  let r2 := drv (trace w ++ [c1]) c2 in
  CLAllocator.copyout drv a dest src w
  = if decide (r_status r1 ≠ 0)
    then (Raise (driver_error (r_status r1)), with_trace (trace w ++ [c1]) w)
    else if decide (r_status r2 ≠ 0)
    then (Raise (driver_error (r_status r2)), with_trace (trace w ++ [c1; c2]) w)
    else (Ok tt, with_heap (alter (set_pending_copyin []) (CLAllocator.device a) (heap w))
                   (with_trace (trace w ++ [c1; c2]) w)).
Proof.
  intros Hq Hl c1 r1 c2 r2.
  rewrite (copyout_unfold _ _ _ _ _ queue) by done. fold c1 r1.
  destruct (decide (r_status r1 ≠ 0)) as [|_]; [reflexivity|].
  destruct (decide (r_status r2 ≠ 0)) as [H2|H2].
  - rewrite (synchronize_raises _ _ _ queue) by done.
    simpl. by rewrite <- (assoc_L (++)).
  - rewrite (synchronize_ok _ _ _ queue l); [|done|done|simpl; fold c2 r2; lia].
    unfold with_heap, with_trace. simpl. by rewrite <- (assoc_L (++)).
Qed.

(** X9.  [copyout] asks for a non-blocking read of [len(dest) *
    dest.itemsize] bytes and then drains the queue.  If the read request
    fails, the queue is not drained and the pending copy-in list stays as
    it was; if the read request is accepted, [copyout] returns exactly
    when the drain succeeds, and only then is the pending list emptied. *)
Theorem copyout_reads_then_drains drv a dest src w queue l :
  dev_queue (obj w (CLAllocator.device a)) = Some queue →
  pending_copyin w (CLAllocator.device a) = Some l →
  let c1 := clEnqueueReadBuffer queue src false (mv_len dest * mv_itemsize dest) dest in
  let r1 := drv (trace w) c1 in
  let c2 := clFinish queue in
  let r2 := drv (trace w ++ [c1]) c2 in
  let out := CLAllocator.copyout drv a dest src in
  (r_status r1 ≠ 0 →
   (out w).1 = Raise (driver_error (r_status r1))
   ∧ calls_made out w = [c1]
   ∧ pending_copyin (out w).2 (CLAllocator.device a) = Some l)
  ∧ (r_status r1 = 0 →
     calls_made out w = [c1; c2]
     ∧ ((out w).1 = Ok tt ↔ r_status r2 = 0)
     ∧ pending_copyin (out w).2 (CLAllocator.device a)
       = Some (if decide (r_status r2 = 0) then [] else l)).
Proof.
  intros Hq Hl c1 r1 c2 r2 out. subst out. unfold calls_made, pending_copyin in *.
  pose proof (copyout_result drv a dest src w queue l Hq Hl) as H.
  cbv zeta in H. fold c1 r1 c2 r2 in H. rewrite H. clear H. split.
  - intros H1. rewrite decide_True by done. simpl. by rewrite drop_app_length.
  - intros H1. rewrite decide_False by lia.
    destruct (decide (r_status r2 ≠ 0)) as [H2|H2]; simpl; rewrite drop_app_length.
    + rewrite decide_False by done. by repeat split.
    + rewrite decide_True by lia. repeat split; try done; try lia.
      apply (pending_after_set (with_trace _ w)). simpl. by eapply pending_lt.
Qed.

(** ** Copying in, repeatedly *)

Lemma queue_after_copyin w d l queue :
  dev_queue (obj w d) = Some queue →
  (d < length (heap w))%nat →
  dev_queue (obj (with_heap (alter (set_pending_copyin l) d (heap w)) w) d) = Some queue.
Proof. intros Hq Hlt. by rewrite obj_alter. Qed.

(** X10.  On a driver that accepts every write request, a run of [copyin]
    calls on one allocator leaves the pending list of its device extended
    by the sources of the calls, in the order of the calls; none is lost,
    none is reordered, and what was pending before is still at the front. *)
Theorem copyins_accumulate drv OSX a xs w queue l :
  accepts_writes drv →
  dev_queue (obj w (CLAllocator.device a)) = Some queue →
  pending_copyin w (CLAllocator.device a) = Some l →
  pending_copyin (run_ops drv OSX (copyins a xs) w) (CLAllocator.device a)
  = Some (l ++ xs.*2).
Proof.
  intros Hdrv. revert w l. unfold pending_copyin.
  induction xs as [|[dest src] xs IH]; intros w l Hq Hl; simpl.
  - by rewrite app_nil_r.
  - unfold run_op. simpl. rewrite (copyin_ok _ _ _ _ _ queue l) by (done || apply Hdrv).
    simpl. pose proof (pending_lt _ _ _ Hl) as Hlt.
    rewrite (IH _ (l ++ [src])).
    + by rewrite <- (assoc_L (++)).
    + by apply (queue_after_copyin (with_trace _ w)).
    + by apply (pending_after_set (with_trace _ w)).
Qed.

(** ** Compiling, when the build succeeds *)

Lemma length_filled {A} (zero : A) (n : Z) (written : list A) :
  length (filled zero n written) = Z.to_nat n.
Proof.
  unfold filled. rewrite length_take, length_app, length_replicate. lia.
Qed.

(** Every way the body of [compile_cl] can end once the build succeeded. *)
Lemma wrapped_build_ok drv prg w cctx context device_id :
  compiler_context w = Some cctx →
  dev_context (obj w cctx) = Some context →
  dev_device_id (obj w cctx) = Some device_id →
  let c1 := clCreateProgramWithSource context (encode prg)
              (Z.of_nat (length (encode prg))) in
  let r1 := drv (trace w) c1 in
  let c2 := clBuildProgram (r_handle r1) device_id in
  let r2 := drv (trace w ++ [c1]) c2 in
  let c3 := clGetProgramInfo (r_handle r1) CL_PROGRAM_BINARY_SIZES None in
  let r3 := drv (trace w ++ [c1; c2]) c3 in
  let c4 := clGetProgramInfo (r_handle r1) CL_PROGRAM_BINARIES (Some (r_value r3)) in
  let r4 := drv (trace w ++ [c1; c2; c3]) c4 in
  let c5 := clReleaseProgram (r_handle r1) in
  let r5 := drv (trace w ++ [c1; c2; c3; c4]) c5 in
  compile_cl__wrapped__ drv prg w
  = if decide (r_status r1 ≠ 0)
    then (Raise (driver_error (r_status r1)), with_trace (trace w ++ [c1]) w)
    else if decide (r_status r2 ≠ 0)
    then compile_cl__wrapped__ drv prg w
    else if decide (r_status r3 ≠ 0)
    then (Raise (driver_error (r_status r3)), with_trace (trace w ++ [c1; c2; c3]) w)
    else if decide (r_status r4 ≠ 0)
    then (Raise (driver_error (r_status r4)), with_trace (trace w ++ [c1; c2; c3; c4]) w)
    else if decide (r_status r5 ≠ 0)
    then (Raise (driver_error (r_status r5)),
          with_trace (trace w ++ [c1; c2; c3; c4; c5]) w)
    else (Ok (filled Byte.x00 (r_value r3) (r_bytes r4)),
          with_trace (trace w ++ [c1; c2; c3; c4; c5]) w).
Proof.
  intros Hc Hctx Hdev c1 r1 c2 r2 c3 r3 c4 r4 c5 r5.
  destruct (decide (r_status r1 ≠ 0)) as [H1|H1].
  { unfold compile_cl__wrapped__. rewrite bind_unfold. simpl. rewrite Hc.
    rewrite bind_unfold, (getattr_some _ _ _ context) by done.
    rewrite bind_unfold. unfold driver_call at 1. cbv beta iota. fold c1 r1.
    by rewrite bind_unfold, checked_result, decide_True. }
  destruct (decide (r_status r2 ≠ 0)) as [H2|H2]; [reflexivity|].
  unfold compile_cl__wrapped__. rewrite bind_unfold. simpl. rewrite Hc.
  rewrite bind_unfold, (getattr_some _ _ _ context) by done.
  rewrite bind_unfold. unfold driver_call at 1. cbv beta iota. fold c1 r1.
  rewrite bind_unfold, checked_result, decide_False by done.
  rewrite bind_unfold, (getattr_some _ _ _ device_id) by done.
  rewrite bind_unfold. unfold driver_call at 1. cbv beta iota. simpl trace.
  fold c2 r2. cbv zeta. rewrite (decide_False (P := r_status r2 ≠ 0)) by done.
  rewrite bind_unfold. unfold driver_call at 1. cbv beta iota. simpl trace.
  rewrite <- !(assoc_L (++)). simpl app. fold c3 r3.
  rewrite bind_unfold. unfold check at 1.
  destruct (decide (r_status r3 ≠ 0)) as [|_]; [reflexivity|].
  unfold mret at 1, M_ret at 1. cbv beta iota.
  rewrite bind_unfold. unfold driver_call at 1. cbv beta iota. simpl trace.
  rewrite <- !(assoc_L (++)). simpl app. fold c4 r4.
  rewrite bind_unfold. unfold check at 1.
  destruct (decide (r_status r4 ≠ 0)) as [|_]; [reflexivity|].
  unfold mret at 1, M_ret at 1. cbv beta iota.
  rewrite bind_unfold. unfold driver_call at 1. cbv beta iota. simpl trace.
  rewrite <- !(assoc_L (++)). simpl app. fold c5 r5.
  rewrite bind_unfold. unfold check at 1.
  destruct (decide (r_status r5 ≠ 0)) as [|_]; reflexivity.
Qed.

(** X11.  When every driver call succeeds, the body of [compile_cl] makes
    exactly five calls: create from source, build, ask for the binary
    size, fetch the binary into a buffer of that size, release the
    program.  It returns as many bytes as the driver reported, whatever
    the driver wrote: what it wrote, cut at that size, and zero bytes
    where it wrote nothing. *)
Theorem compile_returns_binary drv prg w cctx context device_id :
  compiler_context w = Some cctx →
  dev_context (obj w cctx) = Some context →
  dev_device_id (obj w cctx) = Some device_id →
  let c1 := clCreateProgramWithSource context (encode prg)
              (Z.of_nat (length (encode prg))) in
  let r1 := drv (trace w) c1 in
  let c2 := clBuildProgram (r_handle r1) device_id in
  let r2 := drv (trace w ++ [c1]) c2 in
  let c3 := clGetProgramInfo (r_handle r1) CL_PROGRAM_BINARY_SIZES None in
  let r3 := drv (trace w ++ [c1; c2]) c3 in
  let c4 := clGetProgramInfo (r_handle r1) CL_PROGRAM_BINARIES (Some (r_value r3)) in
  let r4 := drv (trace w ++ [c1; c2; c3]) c4 in
  let c5 := clReleaseProgram (r_handle r1) in
  let r5 := drv (trace w ++ [c1; c2; c3; c4]) c5 in
  r_status r1 = 0 → r_status r2 = 0 → r_status r3 = 0 → r_status r4 = 0 →
  r_status r5 = 0 →
  ∃ binary,
    compile_cl__wrapped__ drv prg w
    = (Ok binary, with_trace (trace w ++ [c1; c2; c3; c4; c5]) w)
    ∧ length binary = Z.to_nat (r_value r3)
    ∧ ∀ k : nat,
        (k < Z.to_nat (r_value r3))%nat →
        binary !! k = Some (default Byte.x00 (r_bytes r4 !! k)).
Proof.
  intros Hc Hctx Hdev c1 r1 c2 r2 c3 r3 c4 r4 c5 r5 H1 H2 H3 H4 H5.
  pose proof (wrapped_build_ok drv prg w cctx context device_id Hc Hctx Hdev) as H.
  cbv zeta in H. fold c1 r1 c2 r2 c3 r3 c4 r4 c5 r5 in H.
  rewrite !decide_False in H by lia.
  eexists. split; [exact H|]. split; [apply length_filled|].
  intros k Hk. unfold filled, bytes. rewrite lookup_take_lt by lia.
  destruct (decide (k < length (r_bytes r4))%nat) as [Hlt|Hge].
  - rewrite lookup_app_l by done.
    by destruct (lookup_lt_is_Some_2 _ _ Hlt) as [b ->].
  - rewrite lookup_app_r by lia. rewrite (lookup_ge_None_2 (r_bytes r4)) by lia.
    simpl. apply lookup_replicate_2. lia.
Qed.

(** X12.  The body of [compile_cl] releases the program object it created
    only on the way to returning the binary: the release call is made, and
    made once, exactly when creating, building, asking for the size and
    fetching the binary have all succeeded.  On every error path before
    that, the program object is left unreleased. *)
Theorem compile_releases_only_on_success drv prg w cctx context device_id :
  compiler_context w = Some cctx →
  dev_context (obj w cctx) = Some context →
  dev_device_id (obj w cctx) = Some device_id →
  let c1 := clCreateProgramWithSource context (encode prg)
              (Z.of_nat (length (encode prg))) in
  let r1 := drv (trace w) c1 in
  let c2 := clBuildProgram (r_handle r1) device_id in
  let r2 := drv (trace w ++ [c1]) c2 in
  let c3 := clGetProgramInfo (r_handle r1) CL_PROGRAM_BINARY_SIZES None in
  let r3 := drv (trace w ++ [c1; c2]) c3 in
  let c4 := clGetProgramInfo (r_handle r1) CL_PROGRAM_BINARIES (Some (r_value r3)) in
  let r4 := drv (trace w ++ [c1; c2; c3]) c4 in
  releases (calls_made (compile_cl__wrapped__ drv prg) w)
  = if decide (r_status r1 = 0 ∧ r_status r2 = 0 ∧ r_status r3 = 0 ∧ r_status r4 = 0)
    then [r_handle r1] else [].
Proof.
  intros Hc Hctx Hdev c1 r1 c2 r2 c3 r3 c4 r4.
  pose proof (wrapped_build_ok drv prg w cctx context device_id Hc Hctx Hdev) as H.
  cbv zeta in H. fold c1 r1 c2 r2 c3 r3 c4 r4 in H.
  destruct (decide (r_status r1 ≠ 0)) as [H1|H1].
  { unfold calls_made. rewrite H. simpl. rewrite drop_app_length.
    by rewrite decide_False by tauto. }
  destruct (decide (r_status r2 ≠ 0)) as [H2|H2].
  { clear H. unfold calls_made.
    rewrite (wrapped_build_failed drv prg w cctx context device_id Hc Hctx Hdev)
      by (done || (fold c1 r1; lia)).
    simpl. rewrite drop_app_length. by rewrite decide_False by tauto. }
  unfold calls_made. rewrite H. clear H.
  destruct (decide (r_status r3 ≠ 0)) as [H3|H3].
  { simpl. rewrite drop_app_length. by rewrite decide_False by tauto. }
  destruct (decide (r_status r4 ≠ 0)) as [H4|H4].
  { simpl. rewrite drop_app_length. by rewrite decide_False by tauto. }
  rewrite (decide_True (P := r_status r1 = 0 ∧ r_status r2 = 0
                            ∧ r_status r3 = 0 ∧ r_status r4 = 0)) by lia.
  case_decide; simpl; by rewrite drop_app_length.
Qed.

(** ** Enumerating the devices once *)

Lemma enumerations_app t t' : enumerations (t ++ t') = enumerations t ++ enumerations t'.
Proof. unfold enumerations. by rewrite omap_app. Qed.

#[local] Instance ids_kept_preorder : PreOrder ids_kept.
Proof.
  split.
  - intros w. split; [done|]. exists []. by rewrite app_nil_r.
  - intros w1 w2 w3 (H1&t&Ht&He) (H2&t'&Ht'&He'). split; [congruence|].
    exists (t ++ t'). split.
    + by rewrite Ht', Ht, <- (assoc_L (++)).
    + by rewrite enumerations_app, He, He'.
Qed.

Lemma ids_kept_call w c :
  enumerations [c] = [] → ids_kept w (with_trace (trace w ++ [c]) w).
Proof. intros H. split; [done|]. by exists [c]. Qed.

Lemma ids_kept_same_trace w w' :
  device_ids w' = device_ids w → trace w' = trace w → ids_kept w w'.
Proof. intros H1 H2. split; [done|]. exists []. by rewrite app_nil_r. Qed.

Lemma ids_kept_heap w h : ids_kept w (with_heap h w).
Proof. by apply ids_kept_same_trace. Qed.

Lemma ids_kept_cache w c : ids_kept w (with_cache c w).
Proof. by apply ids_kept_same_trace. Qed.

Lemma ids_kept_compiler_context w v : ids_kept w (with_compiler_context v w).
Proof. by apply ids_kept_same_trace. Qed.

Lemma keeps_setattr_ids self f : keeps ids_kept (setattr self f).
Proof. intros w. apply ids_kept_heap. Qed.

#[local] Hint Extern 1 (ids_kept _ (with_trace (trace _ ++ [_]) _)) =>
  apply ids_kept_call; reflexivity : frame.
#[local] Hint Resolve ids_kept_heap ids_kept_cache ids_kept_compiler_context
  keeps_setattr_ids : frame.

Lemma elect_ids self : keeps ids_kept (CLDevice.elect self).
Proof. unfold CLDevice.elect. keeps_auto. Qed.

#[local] Hint Resolve elect_ids : frame.

Lemma bind_args_ids drv self nbufs i bufs :
  keeps ids_kept (CLProgram.bind_args drv self nbufs i bufs).
Proof. revert i. induction bufs as [|b bufs IH]; intros i; simpl; keeps_auto. Qed.

Lemma synchronize_ids drv self : keeps ids_kept (CLDevice.synchronize drv self).
Proof. unfold CLDevice.synchronize. keeps_auto. Qed.

Lemma compile_cl_ids drv prg : keeps ids_kept (compile_cl drv prg).
Proof. unfold compile_cl, diskcache, compile_cl__wrapped__. keeps_auto. Qed.

Lemma program_init_ids drv d name prg bufs vars :
  keeps ids_kept (CLProgram.__init__ drv d name prg bufs vars).
Proof. unfold CLProgram.__init__. keeps_auto. Qed.

Lemma program_del_ids drv p : keeps ids_kept (CLProgram.__del__ drv p).
Proof. unfold CLProgram.__del__. keeps_auto. Qed.

Lemma program_call_ids drv OSX p bufs g l wait :
  keeps ids_kept (CLProgram.__call__ drv OSX p bufs g l wait).
Proof. unfold CLProgram.__call__. keeps_auto. apply bind_args_ids. Qed.

Lemma alloc_ids drv a size dtype : keeps ids_kept (CLAllocator._alloc drv a size dtype).
Proof. unfold CLAllocator._alloc. keeps_auto. Qed.

Lemma free_ids drv a buf : keeps ids_kept (CLAllocator._free drv a buf).
Proof. unfold CLAllocator._free. keeps_auto. Qed.

Lemma copyin_ids drv a dest src : keeps ids_kept (CLAllocator.copyin drv a dest src).
Proof. unfold CLAllocator.copyin. keeps_auto. Qed.

Lemma copyout_ids drv a dest src : keeps ids_kept (CLAllocator.copyout drv a dest src).
Proof. unfold CLAllocator.copyout. keeps_auto. apply synchronize_ids. Qed.

(** With the identifiers known, the initialiser skips lines 90-94. *)
Lemma init_ids drv self device w ids :
  device_ids w = Some ids → ids_kept w (CLDevice.__init__ drv self device w).2.
Proof.
  intros Hids. unfold CLDevice.__init__.
  rewrite bind_unfold. unfold gets at 1. cbv beta iota. rewrite Hids.
  rewrite bind_unfold. unfold mret at 1, M_ret at 1. cbv beta iota.
  lazymatch goal with
  | |- ids_kept w (?m w).2 => assert (keeps ids_kept m) as Hk; [keeps_auto|apply Hk]
  end.
Qed.

Lemma run_op_ids drv OSX o w ids :
  device_ids w = Some ids → ids_kept w (run_op drv OSX o w).
Proof.
  intros Hids. unfold run_op.
  destruct o as [device|self|prg|d0 name prg bufs vars|p|p bufs g ls wait
                 |a size dtype|a buf|a dest src|a dest src]; simpl;
    rewrite ?void_snd.
  - unfold CLDevice.new. rewrite bind_unfold. unfold new_object at 1.
    cbv beta iota. rewrite bind_unfold.
    pose proof (init_ids drv (length (heap w)) device
                  (with_heap (heap w ++ [blank]) w) ids Hids) as H.
    destruct (CLDevice.__init__ drv (length (heap w)) device _) as [[[]|e] w']; exact H.
  - apply synchronize_ids.
  - apply compile_cl_ids.
  - apply program_init_ids.
  - apply program_del_ids.
  - apply program_call_ids.
  - apply alloc_ids.
  - apply free_ids.
  - apply copyin_ids.
  - apply copyout_ids.
Qed.

(** X13.  The device identifiers are enumerated once per process: once
    [CLDevice.device_ids] is set, no sequence of operations changes it or
    asks the driver for platforms or devices again, however many devices
    are constructed. *)
Theorem device_ids_written_once drv OSX os w ids :
  device_ids w = Some ids →
  device_ids (run_ops drv OSX os w) = Some ids
  ∧ enumerations (drop (length (trace w)) (trace (run_ops drv OSX os w))) = [].
Proof.
  intros Hids.
  assert (ids_kept w (run_ops drv OSX os w)) as (H1&t&Ht&He).
  { revert w Hids. induction os as [|o os IH]; intros w Hids; simpl; [reflexivity|].
    pose proof (run_op_ids drv OSX o w ids Hids) as Ho.
    etrans; [exact Ho|]. apply IH. destruct Ho as [Ho _]. by rewrite Ho. }
  split; [by rewrite H1|]. by rewrite Ht, drop_app_length.
Qed.

(** ** Constructing a device *)

Lemma alter_last {A} (f : A → A) (l : list A) (x : A) :
  alter f (length l) (l ++ [x]) = l ++ [f x].
Proof.
  rewrite <- (Nat.add_0_r (length l)) at 1. by rewrite alter_app_r.
Qed.

Lemma obj_last w w' o :
  heap w' = heap w ++ [o] → obj w' (length (heap w)) = o.
Proof.
  intros H. unfold obj. rewrite H, lookup_app_r by lia. by rewrite Nat.sub_diag.
Qed.

Lemma elect_result self w :
  CLDevice.elect self w
  = (Ok tt, with_compiler_context
              (if compiler_context w is None then Some self else compiler_context w) w).
Proof.
  unfold CLDevice.elect. rewrite bind_unfold. unfold gets. cbv beta iota.
  destruct w as [t ids [c|] h ca]; reflexivity.
Qed.

(** Every way a constructor call can end when the identifiers are known
    and the index selects one of them. *)
Lemma new_known_ids_result drv device w ids i dev :
  device_ids w = Some ids →
  CLDevice.device_index device = Ok i →
  py_index ids i = Ok dev →
  let self := length (heap w) in
  let c1 := clCreateContext dev in
  let r1 := drv (trace w) c1 in
  let c2 := clCreateCommandQueue (r_handle r1) dev in
  let r2 := drv (trace w ++ [c1]) c2 in
  let cc := if compiler_context w is None then Some self else compiler_context w in
  let o1 := set_device_id dev blank in
  let o2 := set_context (r_handle r1) o1 in
  let o3 := set_pending_copyin [] (set_queue (r_handle r2) o2) in
  CLDevice.new drv device w
  = if decide (r_status r1 ≠ 0)
    then (Raise (driver_error (r_status r1)),
          with_trace (trace w ++ [c1]) (with_heap (heap w ++ [o1]) w))
    else if decide (r_status r2 ≠ 0)
    then (Raise (driver_error (r_status r2)),
          with_trace (trace w ++ [c1; c2])
            (with_compiler_context cc (with_heap (heap w ++ [o2]) w)))
    else (Ok self,
          with_trace (trace w ++ [c1; c2])
            (with_compiler_context cc (with_heap (heap w ++ [o3]) w))).
Proof.
  intros Hids Hi Hdev self c1 r1 c2 r2 cc o1 o2 o3. subst self.
  unfold CLDevice.new. rewrite bind_unfold. unfold new_object at 1. cbv beta iota.
  rewrite bind_unfold. unfold CLDevice.__init__.
  rewrite bind_unfold. unfold gets at 1. cbv beta iota. simpl device_ids. rewrite Hids.
  rewrite bind_unfold. unfold mret at 1, M_ret at 1. cbv beta iota.
  rewrite bind_unfold. unfold gets at 1. cbv beta iota. simpl device_ids. rewrite Hids.
  rewrite bind_unfold. unfold lift at 1. rewrite Hi.
  rewrite bind_unfold. unfold lift at 1. simpl default. rewrite Hdev.
  rewrite bind_unfold. unfold setattr at 1, modify at 1. cbv beta iota. simpl heap.
  rewrite alter_last. fold o1.
  rewrite bind_unfold, (getattr_some _ _ _ dev) by (rewrite (obj_last w _ o1) by reflexivity; reflexivity).
  rewrite bind_unfold. unfold driver_call at 1. cbv beta iota. simpl trace. fold c1 r1.
  rewrite bind_unfold, checked_result.
  destruct (decide (r_status r1 ≠ 0)) as [|_]; [reflexivity|].
  rewrite bind_unfold. unfold setattr at 1, modify at 1. cbv beta iota. simpl heap.
  rewrite alter_last. fold o2.
  rewrite bind_unfold, elect_result.
  cbn [compiler_context with_heap with_trace]. fold cc. cbv beta iota.
  rewrite bind_unfold, (getattr_some _ _ _ (r_handle r1))
    by (rewrite (obj_last w _ o2) by reflexivity; reflexivity).
  rewrite bind_unfold, (getattr_some _ _ _ dev)
    by (rewrite (obj_last w _ o2) by reflexivity; reflexivity).
  rewrite bind_unfold. unfold driver_call at 1. cbv beta iota. simpl trace.
  fold c2 r2. rewrite bind_unfold, checked_result.
  destruct (decide (r_status r2 ≠ 0)) as [|_].
  { simpl. by rewrite <- (assoc_L (++)). }
  rewrite bind_unfold. unfold setattr at 1, modify at 1. cbv beta iota. simpl heap.
  rewrite alter_last.
  unfold setattr, modify. simpl heap. rewrite alter_last. fold o3.
  unfold mret, M_ret, with_trace, with_heap, with_compiler_context. simpl.
  by rewrite <- (assoc_L (++)).
Qed.

(** X14.  With the identifiers already enumerated, a constructor call
    whose index selects one of them asks the driver for a context on that
    identifier and then for a command queue on that context, and nothing
    else.  When both succeed it returns a new object that holds the
    selected identifier, the two handles the driver returned and an empty
    pending list; the objects that existed are untouched, and the new one
    becomes the compiler context exactly when there was none. *)
Theorem new_with_known_ids drv device w ids i dev :
  device_ids w = Some ids →
  CLDevice.device_index device = Ok i →
  py_index ids i = Ok dev →
  let c1 := clCreateContext dev in
  let r1 := drv (trace w) c1 in
  let c2 := clCreateCommandQueue (r_handle r1) dev in
  let r2 := drv (trace w ++ [c1]) c2 in
  r_status r1 = 0 → r_status r2 = 0 →
  let w' := (CLDevice.new drv device w).2 in
  (CLDevice.new drv device w).1 = Ok (length (heap w))
  ∧ heap w' = heap w ++ [{| dev_device_id := Some dev; dev_context := Some (r_handle r1);
                            dev_queue := Some (r_handle r2);
                            dev_pending_copyin := Some [] |}]
  ∧ calls_made (CLDevice.new drv device) w = [c1; c2]
  ∧ compiler_context w'
    = (if compiler_context w is None then Some (length (heap w)) else compiler_context w).
Proof.
  intros Hids Hi Hdev c1 r1 c2 r2 H1 H2 w'. subst w'. unfold calls_made.
  pose proof (new_known_ids_result drv device w ids i dev Hids Hi Hdev) as H.
  cbv zeta in H. fold c1 r1 c2 r2 in H. rewrite H. clear H.
  rewrite !decide_False by lia. simpl. by rewrite drop_app_length.
Qed.

Lemma py_index_out_of_range_raises {A} (l : list A) (i : Z) :
  i < - Z.of_nat (length l) ∨ Z.of_nat (length l) ≤ i → py_index l i = Raise IndexError.
Proof.
  intros H. unfold py_index. cbv zeta.
  destruct (i <? 0) eqn:Hneg.
  - assert ((i + Z.of_nat (length l) <? 0) = true) as -> by lia. done.
  - assert ((i <? 0) = false) as E by done.
    rewrite Hneg. assert ((Z.of_nat (length l) <=? i) = true) as -> by lia.
    by rewrite orb_true_r.
Qed.

(** X15.  With the identifiers already enumerated, a device string whose
    index is out of the range of the identifiers (counting from the end
    for a negative index) makes the constructor call raise [IndexError],
    and one whose suffix is not an integer makes it raise [ValueError]; in
    both cases before any driver call, with no compiler context elected
    and the identifiers as they were. *)
Theorem new_bad_index drv device w ids :
  device_ids w = Some ids →
  match device with
  | NoSuffix => ids = []
  | Suffix i => i < - Z.of_nat (length ids) ∨ Z.of_nat (length ids) ≤ i
  | BadSuffix => True
  end →
  let w' := (CLDevice.new drv device w).2 in
  (CLDevice.new drv device w).1
  = Raise (if device is BadSuffix then ValueError else IndexError)
  ∧ calls_made (CLDevice.new drv device) w = []
  ∧ compiler_context w' = compiler_context w
  ∧ device_ids w' = Some ids.
Proof.
  intros Hids Hbad w'. subst w'. unfold calls_made.
  assert (CLDevice.new drv device w
          = (Raise (if device is BadSuffix then ValueError else IndexError),
             with_heap (heap w ++ [blank]) w)) as ->.
  { unfold CLDevice.new. rewrite bind_unfold. unfold new_object at 1. cbv beta iota.
    rewrite bind_unfold. unfold CLDevice.__init__.
    rewrite bind_unfold. unfold gets at 1. cbv beta iota. simpl device_ids. rewrite Hids.
    rewrite bind_unfold. unfold mret at 1, M_ret at 1. cbv beta iota.
    rewrite bind_unfold. unfold gets at 1. cbv beta iota. simpl device_ids. rewrite Hids.
    rewrite bind_unfold. unfold lift at 1.
    destruct device as [|i|]; simpl CLDevice.device_index; cbv beta iota.
    - subst ids. reflexivity.
    - rewrite bind_unfold. unfold lift at 1. simpl default.
      by rewrite py_index_out_of_range_raises.
    - reflexivity. }
  simpl. by rewrite drop_all.
Qed.

(** ** Enumerating *)

(** Every way the enumeration of lines 90-94 can end. *)
Lemma discover_result drv w :
  let c1 := clGetPlatformIDs 0 false in
  let r1 := drv (trace w) c1 in
  let c2 := clGetPlatformIDs (r_value r1) true in
  let r2 := drv (trace w ++ [c1]) c2 in
  let platform_ids := filled 0 (r_value r1) (r_handles r2) in
  CLDevice.discover drv w
  = if decide (r_status r1 ≠ 0)
    then (Raise (driver_error (r_status r1)), with_trace (trace w ++ [c1]) w)
    else if decide (r_status r2 ≠ 0)
    then (Raise (driver_error (r_status r2)), with_trace (trace w ++ [c1; c2]) w)
    else match py_index platform_ids 0 with
         | Raise e => (Raise e, with_trace (trace w ++ [c1; c2]) w)
         | Ok platform =>
           let c3 := clGetDeviceIDs platform 0 false in
           let r3 := drv (trace w ++ [c1; c2]) c3 in
           let c4 := clGetDeviceIDs platform (r_value r3) true in
           let r4 := drv (trace w ++ [c1; c2; c3]) c4 in
           if decide (r_status r3 ≠ 0)
           then (Raise (driver_error (r_status r3)),
                 with_trace (trace w ++ [c1; c2; c3]) w)
           else (if decide (r_status r4 ≠ 0)
                 then Raise (driver_error (r_status r4)) else Ok tt,
                 with_device_ids (Some (filled 0 (r_value r3) (r_handles r4)))
                   (with_trace (trace w ++ [c1; c2; c3; c4]) w))
         end.
Proof.
  intros c1 r1 c2 r2 platform_ids. unfold CLDevice.discover.
  rewrite bind_unfold. unfold driver_call at 1. cbv beta iota. fold c1 r1.
  rewrite bind_unfold. unfold check at 1.
  destruct (decide (r_status r1 ≠ 0)) as [|_]; [reflexivity|].
  unfold mret at 1, M_ret at 1. cbv beta iota.
  rewrite bind_unfold. unfold driver_call at 1. cbv beta iota. simpl trace.
  fold c2 r2. cbv zeta. fold platform_ids.
  rewrite bind_unfold. unfold check at 1.
  destruct (decide (r_status r2 ≠ 0)) as [|_].
  { simpl. by rewrite <- (assoc_L (++)). }
  unfold mret at 1, M_ret at 1. cbv beta iota.
  rewrite bind_unfold. unfold lift at 1.
  destruct (py_index platform_ids 0) as [platform|e] eqn:Hp.
  2:{ simpl. by rewrite <- (assoc_L (++)). }
  rewrite bind_unfold. unfold driver_call at 1. cbv beta iota. simpl trace.
  rewrite <- !(assoc_L (++)). simpl app.
  set (c3 := clGetDeviceIDs platform 0 false).
  set (r3 := drv (trace w ++ [c1; c2]) c3).
  rewrite bind_unfold. unfold check at 1.
  destruct (decide (r_status r3 ≠ 0)) as [|_]; [reflexivity|].
  unfold mret at 1, M_ret at 1. cbv beta iota.
  rewrite bind_unfold. unfold modify at 1. cbv beta iota.
  rewrite bind_unfold. unfold lift at 1. cbv beta iota.
  rewrite bind_unfold. unfold driver_call at 1. cbv beta iota. simpl trace.
  rewrite <- !(assoc_L (++)). simpl app.
  set (c4 := clGetDeviceIDs platform (r_value r3) true).
  set (r4 := drv (trace w ++ [c1; c2; c3]) c4).
  rewrite bind_unfold. unfold modify at 1. cbv beta iota.
  unfold check. destruct (decide (r_status r4 ≠ 0)) as [|_]; reflexivity.
Qed.

(** A constructor call that has to enumerate and fails in doing so. *)
Lemma new_discover_raises drv device w e w' :
  device_ids w = None →
  CLDevice.discover drv (with_heap (heap w ++ [blank]) w) = (Raise e, w') →
  CLDevice.new drv device w = (Raise e, w').
Proof.
  intros Hids Hd. unfold CLDevice.new. rewrite bind_unfold. unfold new_object at 1.
  cbv beta iota. rewrite bind_unfold. unfold CLDevice.__init__.
  rewrite bind_unfold. unfold gets at 1. cbv beta iota. simpl device_ids. rewrite Hids.
  rewrite bind_unfold, Hd. reflexivity.
Qed.

(** X16.  On a driver that reports no platform, the first constructor
    call of a process raises [IndexError] after the two platform queries:
    no device is asked for, no context is created, no compiler context is
    elected, and the identifiers stay unset, so the next constructor call
    enumerates again. *)
Theorem new_without_platforms drv device w :
  device_ids w = None →
  let c1 := clGetPlatformIDs 0 false in
  let r1 := drv (trace w) c1 in
  let c2 := clGetPlatformIDs 0 true in
  let r2 := drv (trace w ++ [c1]) c2 in
  r_status r1 = 0 → r_value r1 = 0 → r_status r2 = 0 →
  let w' := (CLDevice.new drv device w).2 in
  (CLDevice.new drv device w).1 = Raise IndexError
  ∧ calls_made (CLDevice.new drv device) w = [c1; c2]
  ∧ device_ids w' = None
  ∧ compiler_context w' = compiler_context w.
Proof.
  intros Hids c1 r1 c2 r2 H1 Hn H2 w'. subst w'. unfold calls_made.
  pose proof (discover_result drv (with_heap (heap w ++ [blank]) w)) as H.
  cbv zeta in H. simpl trace in H. fold c1 r1 in H. rewrite Hn in H.
  fold c2 r2 in H. rewrite !decide_False in H by lia.
  change (py_index (filled 0 0 (r_handles r2)) 0) with (@Raise handle IndexError) in H.
  rewrite (new_discover_raises _ _ _ _ _ Hids H).
  simpl. rewrite drop_app_length. by rewrite Hids.
Qed.

(** X17.  The identifiers are stored before the call that fills them is
    checked (line 93, then line 94): when the enumeration gets as far as
    asking for the device identifiers, [CLDevice.device_ids] ends up set
    to an array of as many entries as the driver counted, holding what
    the driver wrote and zero where it wrote nothing, whether that last
    call succeeded or not.  If it failed, the constructor call raises the
    driver error, and the array stays. *)
Theorem device_ids_set_before_check drv device w platform :
  device_ids w = None →
  let c1 := clGetPlatformIDs 0 false in
  let r1 := drv (trace w) c1 in
  let c2 := clGetPlatformIDs (r_value r1) true in
  let r2 := drv (trace w ++ [c1]) c2 in
  let c3 := clGetDeviceIDs platform 0 false in
  let r3 := drv (trace w ++ [c1; c2]) c3 in
  let c4 := clGetDeviceIDs platform (r_value r3) true in
  let r4 := drv (trace w ++ [c1; c2; c3]) c4 in
  r_status r1 = 0 → r_status r2 = 0 →
  py_index (filled 0 (r_value r1) (r_handles r2)) 0 = Ok platform →
  r_status r3 = 0 →
  r_status r4 ≠ 0 →
  let w' := (CLDevice.new drv device w).2 in
  (CLDevice.new drv device w).1 = Raise (driver_error (r_status r4))
  ∧ calls_made (CLDevice.new drv device) w = [c1; c2; c3; c4]
  ∧ device_ids w' = Some (filled 0 (r_value r3) (r_handles r4))
  ∧ (∀ ids, device_ids w' = Some ids → length ids = Z.to_nat (r_value r3))
  ∧ compiler_context w' = compiler_context w.
Proof.
  intros Hids c1 r1 c2 r2 c3 r3 c4 r4 H1 H2 Hp H3 H4 w'. subst w'. unfold calls_made.
  pose proof (discover_result drv (with_heap (heap w ++ [blank]) w)) as H.
  cbv zeta in H. simpl trace in H. fold c1 r1 c2 r2 in H. rewrite Hp in H.
  fold c3 r3 c4 r4 in H.
  rewrite !decide_False in H by lia. rewrite decide_True in H by done.
  rewrite (new_discover_raises _ _ _ _ _ Hids H).
  simpl. rewrite drop_app_length. repeat split; try done.
  intros ids [= <-]. apply length_filled.
Qed.

(** ** What programs and buffers leave alone *)

(** X18.  Creating, calling and deleting programs, and allocating and
    freeing buffers, change nothing of the process but the driver: after
    any run of them, however each one ended, the objects, the class
    attributes and the cache are what they were, and the trace has only
    grown.  In particular a kernel call, waited for or not, leaves every
    pending copy-in pending. *)
Theorem handle_ops_only_call_the_driver drv OSX os w :
  Forall (λ o, handle_op o = true) os →
  let w' := run_ops drv OSX os w in
  (∃ t, w' = with_trace (trace w ++ t) w)
  ∧ ∀ d, pending_copyin w' d = pending_copyin w d.
Proof.
  intros Hos. cbv zeta.
  assert (only_trace w (run_ops drv OSX os w)) as [t Ht].
  { revert w. induction Hos as [|o os Ho _ IH]; intros w; [reflexivity|].
    unfold run_ops. simpl. fold (run_ops drv OSX os (run_op drv OSX o w)).
    etrans; [|apply IH]. unfold run_op.
    destruct o; try discriminate Ho; simpl; rewrite ?void_snd.
    - apply program_init_frame.
    - apply program_del_frame.
    - apply program_call_frame.
    - apply alloc_frame.
    - apply free_frame. }
  split; [by exists t|]. intros d. by rewrite Ht.
Qed.

(** ** The further properties at the fake drivers *)

(** X1 at [CL_BUILD_PROGRAM_FAILURE]. *)
Lemma checked_carries_status_witness :
  ∃ e, checked 5 (-11) (fresh ∅) = (Raise e, fresh ∅) ∧ status_of e = Some (-11).
Proof.
  exact (proj1 (proj2 (checked_carries_status 5 (-11) (fresh ∅))) ltac:(discriminate)).
Defined.

(** X2 at the driver that rejects the binary in its binary status. *)
Lemma program_init_needs_both_statuses_witness :
  dev_context (obj one_device 0) = Some 42
  ∧ dev_device_id (obj one_device 0) = Some 7
  ∧ (CLProgram.__init__ binary_rejected 0 "k" [Byte.x01] 1 1 one_device).1
    = Raise (RuntimeError "OpenCL Error -42")
  ∧ calls_made (CLProgram.__init__ binary_rejected 0 "k" [Byte.x01] 1 1) one_device
    = [clCreateProgramWithBinary 42 7 [Byte.x01] 1].
Proof.
  split; [reflexivity|]. split; [reflexivity|].
  destruct (program_init_needs_both_statuses binary_rejected 0 "k" [Byte.x01] 1 1
              one_device 42 7 eq_refl eq_refl) as [_ H].
  unfold calls_made. rewrite (H eq_refl ltac:(vm_compute; discriminate)).
  split; reflexivity.
Defined.

(** X3 at the driver that cannot release a kernel. *)
Lemma program_del_order_witness :
  CLProgram.__del__ release_kernel_fails program0 one_device
  = (Raise (RuntimeError "OpenCL Error -48"),
     with_trace (trace one_device ++ [clReleaseKernel 2]) one_device)
  ∧ calls_made (CLProgram.__del__ release_kernel_fails program0) one_device
    = [clReleaseKernel 2].
Proof.
  exact (proj1 (program_del_order release_kernel_fails program0 one_device)
           ltac:(vm_compute; discriminate)).
Defined.

(** X4 at a buffer followed by a scalar that a [c_int32] does not hold:
    [2^31] is bound as [-2^31]. *)
Lemma bind_args_by_position_witness :
  calls_made (CLProgram.bind_args ok_driver program0 2 0 [PyMem 9; PyInt (2 ^ 31)]) one_device
  !! 0%nat = Some (clSetKernelArg 2 0 8 (cl_mem 9))
  ∧ calls_made (CLProgram.bind_args ok_driver program0 2 0 [PyMem 9; PyInt (2 ^ 31)]) one_device
    !! 1%nat = Some (clSetKernelArg 2 1 4 (c_int32 (- 2 ^ 31)))
  ∧ calls_made (CLProgram.bind_args ok_driver program0 2 0 args0) one_device
    !! 1%nat = Some (clSetKernelArg 2 1 4 (c_int32 3)).
Proof.
  assert (∀ v (j : nat) b, [PyMem 9; PyInt v] !! j = Some b → fits program0 2 (Z.of_nat j) b)
    as Hfit.
  { intros v [|[|j]] b [= <-]; eexists; reflexivity. }
  destruct (bind_args_by_position ok_driver program0 [PyMem 9; PyInt (2 ^ 31)] one_device
              (Hfit (2 ^ 31))) as (_ & _ & H).
  destruct (bind_args_by_position ok_driver program0 args0 one_device (Hfit 3))
    as (_ & _ & H0).
  split; [|split].
  - exact (proj1 (H 0%nat) 9 eq_refl).
  - exact (proj1 (proj2 (H 1%nat)) (2 ^ 31) eq_refl).
  - exact (proj2 (proj2 (H0 1%nat)) 3 eq_refl ltac:(lia)).
Defined.

(** X5 at an integer in the place of the buffer. *)
Lemma call_type_error_witness :
  ¬ fits program0 2 0 (PyInt 3)
  ∧ (CLProgram.__call__ ok_driver false program0 [PyInt 3; PyInt 3] [2; 3] None false
       one_device).1 = Raise TypeError
  ∧ dispatches (calls_made
                  (CLProgram.__call__ ok_driver false program0 [PyInt 3; PyInt 3] [2; 3] None
                     false) one_device) = [].
Proof.
  assert (¬ fits program0 2 0 (PyInt 3)) as Hfit by (intros [bc [=]]).
  split; [exact Hfit|].
  destruct (call_type_error ok_driver false program0 [PyInt 3; PyInt 3] [2; 3] None false
              one_device 0 (PyInt 3) eq_refl Hfit) as (Hr & Hd & _).
  split; [exact Hr|exact Hd].
Defined.

(** X6 at global size [(2, 3)], waiting and not. *)
Lemma empty_local_size_witness :
  dispatches (calls_made
                (CLProgram.__call__ ok_driver false program0 args0 [2; 3] (Some []) true)
                one_device)
  = [(0, [])]
  ∧ CLProgram.__call__ ok_driver false program0 args0 [2; 3] (Some []) false one_device
    = (Ok None,
       with_trace (trace one_device
                   ++ [clSetKernelArg 2 0 8 (cl_mem 9); clSetKernelArg 2 1 4 (c_int32 3);
                       clEnqueueNDRangeKernel 42 2 0 [] None false]) one_device).
Proof.
  split.
  - exact (proj1 (proj2 (empty_local_size ok_driver false program0 args0 [2; 3] true
                           one_device
                           (CLProgram.bind_args ok_driver program0 2 0 args0 one_device).2 42
                           eq_refl eq_refl))).
  - rewrite (proj2 (proj2 (empty_local_size ok_driver false program0 args0 [2; 3] false
                             one_device
                             (CLProgram.bind_args ok_driver program0 2 0 args0 one_device).2
                             42 eq_refl eq_refl))).
    reflexivity.
Defined.

(** X7 at the driver on which waiting fails. *)
Lemma wait_failure_stops_witness :
  (CLProgram.__call__ wait_fails false program0 args0 [2; 3] None true one_device).1
  = Raise (RuntimeError "OpenCL Error -14")
  ∧ calls_made (CLProgram.__call__ wait_fails false program0 args0 [2; 3] None true)
      one_device
    = [clSetKernelArg 2 0 8 (cl_mem 9); clSetKernelArg 2 1 4 (c_int32 3);
       clEnqueueNDRangeKernel 42 2 2 [2; 3] None true; clWaitForEvents 42].
Proof.
  destruct (wait_failure_stops wait_fails false program0 args0 [2; 3] None one_device
              (CLProgram.bind_args wait_fails program0 2 0 args0 one_device).2 42
              eq_refl eq_refl eq_refl) as [H _].
  unfold calls_made. rewrite (H ltac:(vm_compute; discriminate)).
  split; reflexivity.
Defined.

(** X8 at image types of shape [(8,)]. *)
Lemma alloc_image_short_shape_witness :
  dev_context (obj one_device 0) = Some 42
  ∧ CLAllocator._alloc ok_driver allocator0 16 (ImageDType 2 [8]) one_device
    = (Raise IndexError, one_device)
  ∧ CLAllocator._alloc ok_driver allocator0 16 (ImageDType 3 [8]) one_device
    = (Raise (KeyError 3), one_device).
Proof.
  split; [reflexivity|]. split.
  - exact (alloc_image_short_shape ok_driver allocator0 16 2 [8] one_device 42 eq_refl
             ltac:(simpl; lia)).
  - exact (alloc_image_short_shape ok_driver allocator0 16 3 [8] one_device 42 eq_refl
             ltac:(simpl; lia)).
Defined.

(** X9 with one copy-in pending and a drain that fails. *)
Lemma copyout_reads_then_drains_witness :
  dev_queue (obj one_pending 0) = Some 42
  ∧ pending_copyin one_pending 0 = Some [host_span]
  ∧ calls_made (CLAllocator.copyout queue_ops_fail allocator0 host_span 5) one_pending
    = [clEnqueueReadBuffer 42 5 false 8 host_span; clFinish 42]
  ∧ pending_copyin (CLAllocator.copyout queue_ops_fail allocator0 host_span 5 one_pending).2 0
    = Some [host_span].
Proof.
  split; [reflexivity|]. split; [reflexivity|].
  destruct (copyout_reads_then_drains queue_ops_fail allocator0 host_span 5 one_pending 42
              [host_span] eq_refl eq_refl) as [_ H].
  destruct (H eq_refl) as (Hc & _ & Hp).
  split; [exact Hc|exact Hp].
Defined.

(** X10 at two copies into one device. *)
Lemma copyins_accumulate_witness :
  accepts_writes ok_driver
  ∧ pending_copyin
      (run_ops ok_driver false (copyins allocator0 [(5, host_span); (6, host_span)])
         one_pending) 0
    = Some [host_span; host_span; host_span].
Proof.
  assert (accepts_writes ok_driver) as Hdrv by (intros t queue dest blocking size src; reflexivity).
  split; [exact Hdrv|].
  exact (copyins_accumulate ok_driver false allocator0 [(5, host_span); (6, host_span)]
           one_pending 42 [host_span] Hdrv eq_refl eq_refl).
Defined.

(** X11 at the driver that writes two bytes of three. *)
Lemma compile_returns_binary_witness :
  ∃ binary,
    (compile_cl__wrapped__ short_binary "kernel" one_device).1 = Ok binary
    ∧ length binary = 3%nat
    ∧ binary !! 0%nat = Some Byte.x61
    ∧ binary !! 2%nat = Some Byte.x00.
Proof.
  destruct (compile_returns_binary short_binary "kernel" one_device 0 42 7
              eq_refl eq_refl eq_refl eq_refl eq_refl eq_refl eq_refl eq_refl)
    as (binary & Hr & Hlen & Hk).
  exists binary. split; [by rewrite Hr|]. split; [exact Hlen|].
  split; [exact (Hk 0%nat ltac:(vm_compute; lia))|exact (Hk 2%nat ltac:(vm_compute; lia))].
Defined.

(** X12 at the driver whose build fails. *)
Lemma compile_releases_only_on_success_witness :
  releases (calls_made (compile_cl__wrapped__ build_fails "kernel") one_device) = []
  ∧ releases (calls_made (compile_cl__wrapped__ ok_driver "kernel") one_device) = [42].
Proof.
  split.
  - exact (compile_releases_only_on_success build_fails "kernel" one_device 0 42 7
             eq_refl eq_refl eq_refl).
  - exact (compile_releases_only_on_success ok_driver "kernel" one_device 0 42 7
             eq_refl eq_refl eq_refl).
Defined.

(** X13 at two more constructor calls. *)
Lemma device_ids_written_once_witness :
  device_ids one_device = Some [7; 8]
  ∧ device_ids (run_ops ok_driver false [NewDevice (Suffix 1); NewDevice NoSuffix] one_device)
    = Some [7; 8].
Proof.
  split; [reflexivity|].
  exact (proj1 (device_ids_written_once ok_driver false
                  [NewDevice (Suffix 1); NewDevice NoSuffix] one_device [7; 8] eq_refl)).
Defined.

(** X14 at the second device of a process that has constructed the first. *)
Lemma new_with_known_ids_witness :
  (CLDevice.new ok_driver (Suffix 1) one_device).1 = Ok 1%nat
  ∧ calls_made (CLDevice.new ok_driver (Suffix 1)) one_device
    = [clCreateContext 8; clCreateCommandQueue 42 8]
  ∧ compiler_context (CLDevice.new ok_driver (Suffix 1) one_device).2 = Some 0%nat.
Proof.
  destruct (new_with_known_ids ok_driver (Suffix 1) one_device [7; 8] 1 8
              eq_refl eq_refl eq_refl eq_refl eq_refl) as (Hr & _ & Hc & Hcc).
  split; [exact Hr|]. split; [exact Hc|exact Hcc].
Defined.

(** X15 at the third device of a driver that has two. *)
Lemma new_bad_index_witness :
  (CLDevice.new ok_driver (Suffix 2) one_device).1 = Raise IndexError
  ∧ calls_made (CLDevice.new ok_driver (Suffix 2)) one_device = []
  ∧ (CLDevice.new ok_driver BadSuffix one_device).1 = Raise ValueError.
Proof.
  destruct (new_bad_index ok_driver (Suffix 2) one_device [7; 8] eq_refl
              ltac:(right; simpl; lia)) as (Hr & Hc & _).
  destruct (new_bad_index ok_driver BadSuffix one_device [7; 8] eq_refl I) as (Hv & _).
  split; [exact Hr|]. split; [exact Hc|exact Hv].
Defined.

(** X16 at the driver without platforms. *)
Lemma new_without_platforms_witness :
  (CLDevice.new no_platforms NoSuffix (fresh ∅)).1 = Raise IndexError
  ∧ calls_made (CLDevice.new no_platforms NoSuffix) (fresh ∅)
    = [clGetPlatformIDs 0 false; clGetPlatformIDs 0 true]
  ∧ device_ids (CLDevice.new no_platforms NoSuffix (fresh ∅)).2 = None.
Proof.
  destruct (new_without_platforms no_platforms NoSuffix (fresh ∅)
              eq_refl eq_refl eq_refl eq_refl) as (Hr & Hc & Hids & _).
  split; [exact Hr|]. split; [exact Hc|exact Hids].
Defined.

(** X17 at the driver that fails while filling the identifiers. *)
Lemma device_ids_set_before_check_witness :
  (CLDevice.new device_ids_fail NoSuffix (fresh ∅)).1
  = Raise (RuntimeError "OpenCL Error -1")
  ∧ device_ids (CLDevice.new device_ids_fail NoSuffix (fresh ∅)).2 = Some [7; 0].
Proof.
  destruct (device_ids_set_before_check device_ids_fail NoSuffix (fresh ∅) 7
              eq_refl eq_refl eq_refl eq_refl eq_refl ltac:(vm_compute; discriminate))
    as (Hr & _ & Hids & _).
  split; [exact Hr|exact Hids].
Defined.

(** X18 with one copy-in pending: an allocation, a waited kernel call and
    a release later it is still pending. *)
Lemma handle_ops_only_call_the_driver_witness :
  pending_copyin
    (run_ops ok_driver false
       [Alloc allocator0 16 (PlainDType 4);
        CallProgram program0 args0 [2; 3] None true;
        Free allocator0 42] one_pending) 0
  = Some [host_span].
Proof.
  exact (proj2 (handle_ops_only_call_the_driver ok_driver false
                  [Alloc allocator0 16 (PlainDType 4);
                   CallProgram program0 args0 [2; 3] None true;
                   Free allocator0 42] one_pending
                  ltac:(repeat constructor)) 0%nat).
Defined.
